(** * The OAuth 2.0 identity provider of go-authcrunch: [Authenticate],
      [fetchAccessToken] and [fetchFacebookAccessToken]

    A shallow embedding of the package [oauth] and the properties of its
    authentication engine.  The Go code threads three
    kinds of effect: it mutates the request's response and the flow state
    store, it calls collaborators (logger, HTTP client, token verifier,
    claim fetchers), and it may panic on a failed type assertion.  The
    embedding keeps all three: a state monad over a [World], a trace of
    collaborator calls, and an outcome that is either a value or a panic. *)

From Stdlib Require Import ZArith String Ascii List.
From stdpp Require Import base option gmap strings list fin_maps sorting pretty.

Local Open Scope string_scope.
Local Open Scope Z_scope.

#[local] Set Warnings "-register-all".

(** ** Values of the Go runtime *)

(** [interface{}] values produced by [encoding/json]: a JSON number is kept
    as its literal, Go strings are [JString]. *)
Inductive JSON : Type :=
| JNull
| JBool (b : bool)
| JNumber (lit : string)
| JString (s : string)
| JArray (l : list JSON)
| JObject (l : list (string * JSON)).

(** The error kinds of [pkg/errors] that the engine uses. *)
Inductive ErrKind : Type :=
| ErrIdentityProviderOauthAuthorizationFailedDetailed
| ErrIdentityProviderOauthAuthorizationFailed
| ErrIdentityProviderOauthAuthorizationStateNotFound
| ErrIdentityProviderOauthFetchAccessTokenFailed
| ErrIdentityProviderOauthFetchClaimsFailed
| ErrIdentityProviderOauthValidateAccessTokenFailed
| ErrIdentityProviderOauthResponseProcessingFailed
| ErrIdentityProviderOauthGetAccessTokenFailedDetailed
| ErrIdentityProviderOauthGetAccessTokenFailed
| ErrIdentityProviderAuthorizationServerResponseFieldNotFound.

(** A Go [error]: a standard error of [pkg/errors] with the arguments given
    to [WithArgs], or an error made elsewhere (transport, decoding,
    verification), known by its message. *)
Inductive error : Type :=
| StdError (kind : ErrKind) (args : list Any)
| Foreign (msg : string)
with Any : Type :=
| AVal (j : JSON)
| AErr (e : error).

Definition WithArgs (kind : ErrKind) (args : list Any) : error := StdError kind args.

(** A Go [(value, error)] return. *)
Inductive result (A : Type) : Type :=
| Ok (a : A)
| Err (e : error).
Arguments Ok {A} a.
Arguments Err {A} e.

(** The dynamic type assertion [v.(string)]: [None] is the run-time panic. *)
Definition assert_string (v : JSON) : option string :=
  match v with
  | JString s => Some s
  | _ => None
  end.

(** ** [strings], [net/url] *)

Module strings.

(** [strings.Join(elems, sep)]. *)
Fixpoint Join (elems : list string) (sep : string) : string :=
  match elems with
  | [] => ""
  | [e] => e
  | e :: rest => e +:+ sep +:+ Join rest sep
  end.

(** [strings.Split(s, sep)] for a one-byte separator: the pieces between
    the separators, [[""]] for the empty string. *)
Fixpoint split_acc (sep : ascii) (cur : string) (s : string) : list string :=
  match s with
  | EmptyString => [cur]
  | String c s' =>
      if Ascii.eqb c sep then cur :: split_acc sep "" s'
      else split_acc sep (cur +:+ String c "") s'
  end.

Definition Split (s : string) (sep : ascii) : list string := split_acc sep "" s.

End strings.

Module url.

(** [url.Values], a [map[string][]string]. *)
Abbreviation Values := (gmap string (list string)).

Definition Set_ (k v : string) (p : Values) : Values := <[k := [v]]> p.

Definition Add (k v : string) (p : Values) : Values :=
  <[k := (default [] (p !! k) ++ [v])%list]> p.

(** [URL.Query()] on the pairs of the raw query, in their order. *)
Definition Query (pairs : list (string * string)) : Values :=
  foldl (λ p kv, Add kv.1 kv.2 p) ∅ pairs.

(** The values of key [k] among the pairs of a raw query, in their order;
    the first one is what [Query()[k][0]] reads. *)
Definition values_of (pairs : list (string * string)) (k : string) : list string :=
  (filter (λ kv, kv.1 = k) pairs).*2.

Definition query_get (pairs : list (string * string)) (k : string) : option string :=
  head (values_of pairs k).

Definition has_param (pairs : list (string * string)) (k : string) : bool :=
  match query_get pairs k with
  | Some _ => true
  | None => false
  end.

Definition unreserved (c : ascii) : bool :=
  let n := N_of_ascii c in
  ((48 <=? n) && (n <=? 57) || (65 <=? n) && (n <=? 90) || (97 <=? n) && (n <=? 122)
   || (n =? 45) || (n =? 95) || (n =? 46) || (n =? 126))%N.

Definition upperhex (n : N) : ascii :=
  default "0"%char (String.get (N.to_nat n) "0123456789ABCDEF").

(** [url.QueryEscape]. *)
Fixpoint QueryEscape (s : string) : string :=
  match s with
  | EmptyString => EmptyString
  | String c s' =>
      if Ascii.eqb c " " then String "+" (QueryEscape s')
      else if unreserved c then String c (QueryEscape s')
      else let n := N_of_ascii c in
           String "%" (String (upperhex (n / 16)) (String (upperhex (n mod 16)) (QueryEscape s')))
  end.

Definition key_le (a b : string * list string) : Prop := Is_true (String.leb a.1 b.1).

#[global] Instance key_le_dec a b : Decision (key_le a b) := _.

(** [Values.Encode()]: keys sorted, [k=v] pairs joined by [&]. *)
Definition Encode (p : Values) : string :=
  strings.Join
    (flat_map (λ kvs : string * list string,
                 map (λ v, QueryEscape kvs.1 +:+ "=" +:+ QueryEscape v) kvs.2)
              (merge_sort key_le (map_to_list p)))
    "&".

End url.


Module http.

Definition StatusOK : Z := 200.
Definition StatusFound : Z := 302.
Definition StatusBadRequest : Z := 400.

(** A parsed URL: what precedes the query, and the raw query. *)
Record URL : Type := { Location : string; RawQuery : string }.

(** [http.Header], a [map[string][]string]. *)
Abbreviation Header := (gmap string (list string)).

Record Request : Type := {
  Method : string;
  URL_ : URL;
  Header_ : Header;
  Body : option string
}.

(** A response, as far as the code reads it: [ioutil.ReadAll(resp.Body)]. *)
Record Response : Type := { ReadAll : result string }.

(** [*http.Client]: the code only calls [Do]. *)
Record Client : Type := { Do : Request → result Response }.

Definition Header_Set (k v : string) (req : Request) : Request :=
  {| Method := Method req; URL_ := URL_ req;
     Header_ := url.Set_ k v (Header_ req); Body := Body req |}.

Definition Header_Add (k v : string) (req : Request) : Request :=
  {| Method := Method req; URL_ := URL_ req;
     Header_ := url.Add k v (Header_ req); Body := Body req |}.

Definition set_RawQuery (q : string) (req : Request) : Request :=
  {| Method := Method req;
     URL_ := {| Location := Location (URL_ req); RawQuery := q |};
     Header_ := Header_ req; Body := Body req |}.

End http.

(** ** The data of the provider *)

(** [b.config]: the fields of the configuration that the engine reads. *)
Record Config : Type := {
  Driver : string;
  ClientID : string;
  ClientSecret : string;
  Scopes : list string;
  ResponseType : list string;
  JsCallbackEnabled : bool;
  IdentityTokenCookieEnabled : bool;
  IdentityTokenCookieName : string
}.

(** [*IdentityProvider], without its mutable parts ([b.state], [b.logger]),
    which live in the [World].  [requiredTokenFields] is a Go map used as a
    set; the list gives its keys in the order in which the [range] loop of
    the run at hand visits them (Go leaves that order open, so every
    statement below holds for every order). *)
Record IdentityProvider : Type := {
  config : Config;
  authorizationURL : string;
  tokenURL : string;
  disableNonce : bool;
  disableScope : bool;
  disableResponseType : bool;
  disablePassGrantType : bool;
  enableAcceptHeader : bool;
  requiredTokenFields : list string
}.

(** [requests.Request], as far as [Authenticate] reads it.  [Query] holds
    the key-value pairs of the inbound URL's query in their order. *)
Record Request : Type := {
  ID : string;
  SessionID : string;
  BaseURL : string;
  BasePath : string;
  Method : string;
  Realm : string;
  Query : list (string * string)
}.

Record IdentityTokenCookie : Type := {
  Enabled : bool;
  Name : string;
  Payload_ : string
}.

(** [r.Response]. *)
Record Response : Type := {
  Code : Z;
  Payload : option (gmap string JSON);
  RedirectURL : string;
  Cookie : IdentityTokenCookie
}.

(** *** The flow state store *)

(** One outstanding authorization request. *)
Record FlowState : Type := {
  nonce : option string;
  code : option string;
  created_at : Z
}.

(** ** Effects *)

(** The calls that leave [Authenticate]: to the logger, the store, the HTTP
    client, and the methods of the provider that are not in this file. *)
Inductive Event : Type :=
| LogDebug (msg : string)
| StateExists (state : string)
| StateAddCode (state code : string)
| StateAdd (state nonce : string)
| NewBrowser
| ClientDo (req : http.Request)
| ValidateAccessToken (state : string) (data : gmap string JSON)
| FetchClaims (data : gmap string JSON)
| FetchUserInfo (data m : gmap string JSON)
| FetchUserGroups (data m : gmap string JSON).

(** What the engine mutates: the store [b.state], the response [r.Response],
    the trace of calls made so far, the number of random values drawn, and
    the time. *)
Record World : Type := {
  b_state : gmap string FlowState;
  r_Response : Response;
  calls : list Event;
  draws : nat;
  now : Z
}.

(** The collaborators outside this file: library functions ([path.Join],
    [uuid.New], [url.Parse] inside [http.NewRequest], [json.Unmarshal]), the
    source of randomness, the token verifier, and the provider's own
    [newBrowser], [fetchClaims], [fetchUserInfo] and [fetchUserGroups].  The
    last two receive the claim map by reference; they return the map as
    they leave it, and leave the token envelope as it is. *)
Record Env : Type := {
  path_Join : list string → string;
  uuid_New : nat → string;
  random_char : nat → nat → ascii;
  url_Parse : string → result http.URL;
  json_Unmarshal : string → result (gmap string JSON);
  newBrowser : result http.Client;
  verify_id_token : string → result (gmap string JSON);
  fetchClaims : gmap string JSON → result (gmap string JSON);
  fetchUserInfo : gmap string JSON → gmap string JSON → gmap string JSON * option error;
  fetchUserGroups : gmap string JSON → gmap string JSON → gmap string JSON * option error
}.

(** A computation either yields a value or panics. *)
Inductive Out (A : Type) : Type :=
| Ret (a : A)
| Panic (msg : string).
Arguments Ret {A} a.
Arguments Panic {A} msg.

Definition M (A : Type) : Type := World → Out A * World.

#[global] Instance M_ret : MRet M := λ A a w, (Ret a, w).

#[global] Instance M_bind : MBind M := λ A B f m w,
  match m w with
  | (Ret a, w') => f a w'
  | (Panic msg, w') => (Panic msg, w')
  end.

Definition panic {A : Type} (msg : string) : M A := λ w, (Panic msg, w).

Definition record_calls (es : list Event) (w : World) : World :=
  {| b_state := b_state w; r_Response := r_Response w;
     calls := (calls w ++ es)%list; draws := draws w; now := now w |}.

Definition with_Response (f : Response → Response) (w : World) : World :=
  {| b_state := b_state w; r_Response := f (r_Response w);
     calls := calls w; draws := draws w; now := now w |}.

Definition emit (e : Event) : M unit := λ w, (Ret tt, record_calls [e] w).

Definition get_state : M (gmap string FlowState) := λ w, (Ret (b_state w), w).

Definition with_state (s : gmap string FlowState) (w : World) : World :=
  {| b_state := s; r_Response := r_Response w;
     calls := calls w; draws := draws w; now := now w |}.

Definition put_state (s : gmap string FlowState) : M unit := λ w, (Ret tt, with_state s w).

Definition get_now : M Z := λ w, (Ret (now w), w).

Definition drawn (w : World) : World :=
  {| b_state := b_state w; r_Response := r_Response w;
     calls := calls w; draws := S (draws w); now := now w |}.

Definition draw : M nat := λ w, (Ret (draws w), drawn w).

Definition update_Response (f : Response → Response) : M unit := λ w,
  (Ret tt, with_Response f w).

Definition with_Code (c : Z) (r : Response) : Response :=
  {| Code := c; Payload := Payload r; RedirectURL := RedirectURL r; Cookie := Cookie r |}.

Definition set_Code (c : Z) : M unit := update_Response (with_Code c).

Definition with_Payload (m : gmap string JSON) (r : Response) : Response :=
  {| Code := Code r; Payload := Some m; RedirectURL := RedirectURL r; Cookie := Cookie r |}.

Definition set_Payload (m : gmap string JSON) : M unit := update_Response (with_Payload m).

Definition with_RedirectURL (u : string) (r : Response) : Response :=
  {| Code := Code r; Payload := Payload r; RedirectURL := u; Cookie := Cookie r |}.

Definition set_RedirectURL (u : string) : M unit := update_Response (with_RedirectURL u).

Definition with_Cookie (name payload : string) (r : Response) : Response :=
  {| Code := Code r; Payload := Payload r; RedirectURL := RedirectURL r;
     Cookie := {| Enabled := true; Name := name; Payload_ := payload |} |}.

Definition set_Cookie (name payload : string) : M unit :=
  update_Response (with_Cookie name payload).

(** [b.logger.Debug(msg, ...)]. *)
Definition Debug (msg : string) : M unit := emit (LogDebug msg).

(** [v.(string)] inside a computation. *)
Definition to_string (v : JSON) : M string :=
  match assert_string v with
  | Some s => mret s
  | None => panic "interface conversion: interface {} is not string"
  end.

(** [vs[0]]. *)
Definition index0 (vs : list string) : M string :=
  match vs with
  | v :: _ => mret v
  | [] => panic "index out of range [0] with length 0"
  end.

(** [if _, exists := reqParams[k]; exists { flag = true; value = reqParams[k][0] }]. *)
Definition param (reqParams : url.Values) (k : string) : M (bool * string) :=
  match reqParams !! k with
  | Some vs => v ← index0 vs; mret (true, v)
  | None => mret (false, "")
  end.

(** ** The flow state store and the random strings *)

Module store.

Abbreviation t := (gmap string FlowState).

(** Modelled from the spec: the store [b.state] is not in the sources at
    hand, only its calls are.  [exists(state)]: whether the state is
    live. *)
Definition exists_ (state : string) (s : t) : bool :=
  bool_decide (is_Some (s !! state)).

(** Modelled from the spec: [add(state, nonce)] inserts, and fails if the
    state is already live.  The caller reads no result, so a failed [add]
    leaves the store as it is. *)
Definition add (state nonce_ : string) (created : Z) (s : t) : t :=
  if exists_ state s then s
  else <[state := {| nonce := Some nonce_; code := None; created_at := created |}]> s.

(** Modelled from the spec: [add_code(state, code)] attaches the code, and
    fails (a no-op for the caller) if the state is absent or already has a
    code. *)
Definition addCode (state code_ : string) (s : t) : t :=
  match s !! state with
  | Some fs =>
      match code fs with
      | None => <[state := {| nonce := nonce fs; code := Some code_;
                              created_at := created_at fs |}]> s
      | Some _ => s
      end
  | None => s
  end.

End store.

(** Modelled from the spec: [util.GetRandomString(n)] is not in the sources
    at hand; the spec has it return a random string of [n] characters.  The
    characters come from the source of randomness [src]. *)
Definition GetRandomString (src : nat → ascii) (n : nat) : string :=
  string_of_list_ascii (map src (seq 0 n)).

(** ** The provider's methods *)

Section Provider.

Context (env : Env) (b : IdentityProvider).

(** [b.state.exists(state)]. *)
Definition state_exists (state : string) : M bool :=
  emit (StateExists state);;
  s ← get_state;
  mret (store.exists_ state s).

(** [b.state.addCode(state, code)]. *)
Definition state_addCode (state code_ : string) : M unit :=
  emit (StateAddCode state code_);;
  s ← get_state;
  put_state (store.addCode state code_ s).

(** [b.state.add(state, nonce)]. *)
Definition state_add (state nonce_ : string) : M unit :=
  emit (StateAdd state nonce_);;
  s ← get_state;
  t ← get_now;
  put_state (store.add state nonce_ t s).

(** [uuid.New().String()]. *)
Definition uuid_New_String : M string :=
  i ← draw;
  mret (uuid_New env i).

(** [util.GetRandomString(n)]. *)
Definition util_GetRandomString (n : nat) : M string :=
  i ← draw;
  mret (GetRandomString (random_char env i) n).

(** [http.NewRequest(method, url, body)]: fails when the URL does not
    parse. *)
Definition http_NewRequest (method url_ : string) (body : option string)
  : result http.Request :=
  match url_Parse env url_ with
  | Ok u => Ok {| http.Method := method; http.URL_ := u;
                  http.Header_ := ∅; http.Body := body |}
  | Err e => Err e
  end.

(** [b.newBrowser()]. *)
Definition b_newBrowser : M (result http.Client) :=
  emit NewBrowser;;
  mret (newBrowser env).

(** [cli.Do(req)]. *)
Definition cli_Do (cli : http.Client) (req : http.Request) : M (result http.Response) :=
  emit (ClientDo req);;
  mret (http.Do cli req).

(** [for k := range b.requiredTokenFields { if _, exists := data[k]; !exists { return k } }]:
    the first key of the loop that the data lacks. *)
Fixpoint missing_field (ks : list string) (data : gmap string JSON) : option string :=
  match ks with
  | [] => None
  | k :: ks' =>
      match data !! k with
      | Some _ => missing_field ks' data
      | None => Some k
      end
  end.

(** Lines 370-387 of [fetchAccessToken], which [fetchFacebookAccessToken]
    repeats word for word (lines 437-454): the error shapes of the
    authorization server, then the required fields. *)
Definition check_token_response (data : gmap string JSON)
  : M (result (gmap string JSON)) :=
  match data !! "error" with
  | Some e =>
      match data !! "error_description" with
      | Some v =>
          es ← to_string e;
          vs ← to_string v;
          mret (Err (WithArgs ErrIdentityProviderOauthGetAccessTokenFailedDetailed
                       [AVal (JString es); AVal (JString vs)]))
      | None =>
          match e with
          | JString s =>
              mret (Err (WithArgs ErrIdentityProviderOauthGetAccessTokenFailed
                           [AVal (JString s)]))
          | _ =>
              mret (Err (WithArgs ErrIdentityProviderOauthGetAccessTokenFailed [AVal e]))
          end
      end
  | None =>
      match missing_field (requiredTokenFields b) data with
      | Some k =>
          mret (Err (WithArgs ErrIdentityProviderAuthorizationServerResponseFieldNotFound
                       [AVal (JString k)]))
      | None => mret (Ok data)
      end
  end.

(** The form of the generic exchange. *)
Definition token_params (redirectURI state code_ : string) : url.Values :=
  let params : url.Values := ∅ in
  let params := url.Set_ "client_id" (ClientID (config b)) params in
  let params := url.Set_ "client_secret" (ClientSecret (config b)) params in
  let params := if negb (disablePassGrantType b)
                then url.Set_ "grant_type" "authorization_code" params
                else params in
  let params := url.Set_ "state" state params in
  let params := url.Set_ "code" code_ params in
  url.Set_ "redirect_uri" redirectURI params.

Definition fetchAccessToken (redirectURI state code_ : string)
  : M (result (gmap string JSON)) :=
  let params := token_params redirectURI state code_ in
  (* [cli := &http.Client{...}] is overwritten at once by the next line. *)
  cli ← b_newBrowser;
  match cli with
  | Err err => mret (Err err)
  | Ok cli =>
  match http_NewRequest "POST" (tokenURL b) (Some (url.Encode params)) with
  | Err err => mret (Err err)
  | Ok req =>
  let req := if enableAcceptHeader b
             then http.Header_Set "Accept" "application/json" req else req in
  let req := http.Header_Add "Content-Type" "application/x-www-form-urlencoded" req in
  let req := http.Header_Add "Content-Length"
               (pretty (String.length (url.Encode params))) req in
  resp ← cli_Do cli req;
  match resp with
  | Err err => mret (Err err)
  | Ok resp =>
  match http.ReadAll resp with
  | Err err => mret (Err err)
  | Ok respBody =>
  Debug "OAuth 2.0 access token response received";;
  match json_Unmarshal env respBody with
  | Err err => mret (Err err)
  | Ok data =>
  Debug "OAuth 2.0 access token response decoded";;
  check_token_response data
  end end end end end.

(** The query of the Facebook exchange. *)
Definition facebook_token_params (redirectURI code_ : string) : url.Values :=
  let params : url.Values := ∅ in
  let params := url.Set_ "client_id" (ClientID (config b)) params in
  let params := url.Set_ "client_secret" (ClientSecret (config b)) params in
  let params := url.Set_ "code" code_ params in
  url.Set_ "redirect_uri" redirectURI params.

Definition fetchFacebookAccessToken (redirectURI state code_ : string)
  : M (result (gmap string JSON)) :=
  let params := facebook_token_params redirectURI code_ in
  cli ← b_newBrowser;
  match cli with
  | Err err => mret (Err err)
  | Ok cli =>
  match http_NewRequest "GET" (tokenURL b) None with
  | Err err => mret (Err err)
  | Ok req =>
  let req := http.set_RawQuery (url.Encode params) req in
  let req := if enableAcceptHeader b
             then http.Header_Set "Accept" "application/json" req else req in
  resp ← cli_Do cli req;
  match resp with
  | Err err => mret (Err err)
  | Ok resp =>
  match http.ReadAll resp with
  | Err err => mret (Err err)
  | Ok respBody =>
  Debug "OAuth 2.0 access token response received";;
  match json_Unmarshal env respBody with
  | Err err => mret (Err err)
  | Ok data => check_token_response data
  end end end end end.

(** Modelled from the spec: [validateAccessToken] is not in the sources at
    hand.  The spec's token verifier takes the [id_token] of the envelope,
    has it verified (signature, issuer, audience, times: the capability
    [verify_id_token]), requires, when the nonce is enabled, that the
    token's [nonce] is the one registered with the state, and returns the
    claims as a map.  It reads the store and does not change it. *)
Definition validateAccessToken (state : string) (data : gmap string JSON)
  : M (result (gmap string JSON)) :=
  emit (ValidateAccessToken state data);;
  match data !! "id_token" with
  | Some (JString tok) =>
      match verify_id_token env tok with
      | Err err => mret (Err err)
      | Ok claims =>
          if disableNonce b then mret (Ok claims)
          else
            s ← get_state;
            match claims !! "nonce", s !! state ≫= nonce with
            | Some (JString n), Some n' =>
                if bool_decide (n = n') then mret (Ok claims)
                else mret (Err (Foreign "nonce mismatch"))
            | _, _ => mret (Err (Foreign "nonce not found"))
            end
      end
  | _ => mret (Err (Foreign "id_token not found"))
  end.

(** [b.fetchClaims(accessToken)]. *)
Definition b_fetchClaims (accessToken : gmap string JSON)
  : M (result (gmap string JSON)) :=
  emit (FetchClaims accessToken);;
  mret (fetchClaims env accessToken).

(** [b.fetchUserInfo(accessToken, m)]: the map [m] as the call leaves it,
    and the error. *)
Definition b_fetchUserInfo (accessToken m : gmap string JSON)
  : M (gmap string JSON * option error) :=
  emit (FetchUserInfo accessToken m);;
  mret (fetchUserInfo env accessToken m).

(** [b.fetchUserGroups(accessToken, m)]. *)
Definition b_fetchUserGroups (accessToken m : gmap string JSON)
  : M (gmap string JSON * option error) :=
  emit (FetchUserGroups accessToken m);;
  mret (fetchUserGroups env accessToken m).

(** [case "github", "gitlab", "facebook", "discord", "patreon"]. *)
Definition claims_from_endpoints (driver : string) : bool :=
  bool_decide (driver ∈ ["github"; "gitlab"; "facebook"; "discord"; "patreon"]).

(** Lines 204-237: user info, groups, the identity cookie and the
    response, once the token envelope [accessToken] and the claim map [m]
    are at hand. *)
Definition claims_phase (accessToken m : gmap string JSON) : M (option error) :=
  (* Fetch user info. *)
  '(m, err) ← b_fetchUserInfo accessToken m;
  match err with
  | Some _ => Debug "failed fetching user info"
  | None => mret tt
  end;;
  (* Fetch subsequent user info, e.g. user groups. *)
  '(m, err) ← b_fetchUserGroups accessToken m;
  match err with
  | Some _ => Debug "failed fetching user groups"
  | None => mret tt
  end;;
  (if IdentityTokenCookieEnabled (config b)
   then match accessToken !! "id_token" with
        | Some v =>
            payload ← to_string v;
            set_Cookie (IdentityTokenCookieName (config b)) payload
        | None => mret tt
        end
   else mret tt);;
  set_Payload m;;
  set_Code http.StatusOK;;
  Debug "decoded claims from OAuth 2.0 authorization server access token";;
  mret None.

(** Lines 157-203: the callback with a code and a live state, after the
    code was attached: the exchange, then the claims. *)
Definition authorization_code_flow (reqPath reqParamsState reqParamsCode : string)
  : M (option error) :=
  Debug "received OAuth 2.0 code and state from the authorization server";;
  let reqRedirectURI := reqPath +:+ "/authorization-code-callback" in
  fetched ← (if bool_decide (Driver (config b) = "facebook")
             then fetchFacebookAccessToken reqRedirectURI reqParamsState reqParamsCode
             else fetchAccessToken reqRedirectURI reqParamsState reqParamsCode);
  match fetched with
  | Err err =>
      Debug "failed fetching OAuth 2.0 access token from the authorization server";;
      mret (Some (WithArgs ErrIdentityProviderOauthFetchAccessTokenFailed [AErr err]))
  | Ok accessToken =>
  Debug "received OAuth 2.0 authorization server access token";;
  claims ← (if claims_from_endpoints (Driver (config b))
            then
              got ← b_fetchClaims accessToken;
              match got with
              | Err err =>
                  mret (Err (WithArgs ErrIdentityProviderOauthFetchClaimsFailed [AErr err]))
              | Ok m => mret (Ok m)
              end
            else
              got ← validateAccessToken reqParamsState accessToken;
              match got with
              | Err err =>
                  mret (Err (WithArgs ErrIdentityProviderOauthValidateAccessTokenFailed
                               [AErr err]))
              | Ok m => mret (Ok m)
              end);
  match claims with
  | Err err => mret (Some err)
  | Ok m => claims_phase accessToken m
  end end.


(** Lines 238-262: the callback with an [id_token] and an [access_token]. *)
Definition implicit_flow (reqParamsState reqParamsAccessToken reqParamsIDToken : string)
  : M (option error) :=
  let accessToken : gmap string JSON :=
    <["access_token" := JString reqParamsAccessToken]>
      (<["id_token" := JString reqParamsIDToken]> ∅) in
  got ← validateAccessToken reqParamsState accessToken;
  match got with
  | Err err =>
      mret (Some (WithArgs ErrIdentityProviderOauthValidateAccessTokenFailed [AErr err]))
  | Ok m =>
      set_Payload m;;
      set_Code http.StatusOK;;
      (if IdentityTokenCookieEnabled (config b)
       then set_Cookie (IdentityTokenCookieName (config b)) reqParamsIDToken
       else mret tt);;
      Debug "decoded claims from OAuth 2.0 authorization server access token";;
      mret None
  end.

(** Lines 269-297: the query of the redirect to the authorization
    server. *)
Definition redirect_params (reqPath state nonce_ : string)
    (additionalScopesExists : bool) (additionalScopes : string)
    (loginHintExists : bool) (reqParamsLoginHint : string) : url.Values :=
  let params : url.Values := ∅ in
  (* CSRF Protection *)
  let params := url.Set_ "state" state params in
  let params := if negb (disableNonce b)
                then (* Server Side-Replay Protection *)
                     url.Set_ "nonce" nonce_ params
                else params in
  let params :=
    if negb (disableScope b)
    then let scopes := Scopes (config b) in
         let scopes := if additionalScopesExists
                       then (scopes ++ strings.Split additionalScopes " ")%list
                       else scopes in
         url.Set_ "scope" (strings.Join scopes " ") params
    else params in
  let params := if JsCallbackEnabled (config b)
                then url.Set_ "redirect_uri" (reqPath +:+ "/authorization-code-js-callback") params
                else url.Set_ "redirect_uri" (reqPath +:+ "/authorization-code-callback") params in
  let params := if negb (disableResponseType b)
                then url.Set_ "response_type" (strings.Join (ResponseType (config b)) " ") params
                else params in
  let params := if loginHintExists
                then url.Set_ "login_hint" reqParamsLoginHint params
                else params in
  url.Set_ "client_id" (ClientID (config b)) params.

(** Lines 266-307: the request that starts a flow. *)
Definition initiate_flow (reqPath : string)
    (additionalScopesExists : bool) (additionalScopes : string)
    (loginHintExists : bool) (reqParamsLoginHint : string) : M (option error) :=
  set_Code http.StatusFound;;
  state ← uuid_New_String;
  nonce_ ← util_GetRandomString 32;
  let params := redirect_params reqPath state nonce_ additionalScopesExists
                  additionalScopes loginHintExists reqParamsLoginHint in
  set_RedirectURL (authorizationURL b +:+ "?" +:+ url.Encode params);;
  state_add state nonce_;;
  Debug "redirecting to OAuth 2.0 endpoint";;
  mret None.

(** [Authenticate] performs authentication. *)
Definition Authenticate (r : Request) : M (option error) :=
  let reqPath := BaseURL r +:+ path_Join env [BasePath r; Method r; Realm r] in
  set_Code http.StatusBadRequest;;
  let reqParams := url.Query (Query r) in
  '(accessTokenExists, reqParamsAccessToken) ← param reqParams "access_token";
  '(idTokenExists, reqParamsIDToken) ← param reqParams "id_token";
  '(codeExists, reqParamsCode) ← param reqParams "code";
  '(stateExists, reqParamsState) ← param reqParams "state";
  '(errorExists, reqParamsError) ← param reqParams "error";
  '(loginHintExists, reqParamsLoginHint) ← param reqParams "login_hint";
  '(additionalScopesExists, additionalScopes) ← param reqParams "additional_scopes";
  if stateExists || errorExists || codeExists || accessTokenExists
  then
    Debug "received OAuth 2.0 response";;
    if errorExists
    then
      match reqParams !! "error_description" with
      | Some v =>
          v0 ← index0 v;
          mret (Some (WithArgs ErrIdentityProviderOauthAuthorizationFailedDetailed
                        [AVal (JString reqParamsError); AVal (JString v0)]))
      | None =>
          mret (Some (WithArgs ErrIdentityProviderOauthAuthorizationFailed
                        [AVal (JString reqParamsError)]))
      end
    else if codeExists && stateExists
    then
      (* Received Authorization Code *)
      state_exists reqParamsState ≫= λ live : bool,
      if live
      then
        state_addCode reqParamsState reqParamsCode;;
        authorization_code_flow reqPath reqParamsState reqParamsCode
      else
        mret (Some (WithArgs ErrIdentityProviderOauthAuthorizationStateNotFound []))
    else if idTokenExists && accessTokenExists
    then implicit_flow reqParamsState reqParamsAccessToken reqParamsIDToken
    else mret (Some (WithArgs ErrIdentityProviderOauthResponseProcessingFailed []))
  else
    initiate_flow reqPath additionalScopesExists additionalScopes
      loginHintExists reqParamsLoginHint.

End Provider.

(** ** The engine's table, and what a run leaves alone *)

(** The rows of the engine's table of observed parameters, in the order in
    which the code tests them. *)
Inductive Shape : Type :=
| AuthorizationError (e : string) (description : option string)
| CodeAndState (code_ state : string)
| Implicit (accessToken idToken state : string)
| Unprocessable
| Initial.

Definition classify (q : list (string * string)) : Shape :=
  match url.query_get q "error" with
  | Some e => AuthorizationError e (url.query_get q "error_description")
  | None =>
      match url.query_get q "code", url.query_get q "state" with
      | Some c, Some s => CodeAndState c s
      | c, s =>
          match url.query_get q "id_token", url.query_get q "access_token" with
          | Some j, Some a => Implicit a j (default "" s)
          | _, a =>
              match c, s, a with
              | None, None, None => Initial
              | _, _, _ => Unprocessable
              end
          end
      end
  end.

(** The path of the request, [reqPath]. *)
Definition reqPath_of (env : Env) (r : Request) : string :=
  BaseURL r +:+ path_Join env [BasePath r; Method r; Realm r].

(** The world when the engine has seen that the request is a response of the
    authorization server: the code is 400 and the response is logged. *)
Definition received (w : World) : World :=
  record_calls [LogDebug "received OAuth 2.0 response"]
    (with_Response (with_Code http.StatusBadRequest) w).

(** A run that leaves the store as it is and only adds calls to the trace,
    all of them of the kind [P]. *)
Definition frame (P : Event → Prop) (w w' : World) : Prop :=
  b_state w' = b_state w ∧ ∃ es, calls w' = (calls w ++ es)%list ∧ Forall P es.

Definition framed {A : Type} (P : Event → Prop) (m : M A) : Prop :=
  ∀ w, frame P w (m w).2.

Definition any_call (e : Event) : Prop := True.

(** A call other than [cli.Do]. *)
Definition no_request (e : Event) : Prop :=
  match e with ClientDo _ => False | _ => True end.

(** A call other than [b.state.exists]. *)
Definition no_exists_check (e : Event) : Prop :=
  match e with StateExists _ => False | _ => True end.

(** The requests given to [cli.Do] in a trace. *)
Definition requests_of (es : list Event) : list http.Request :=
  omap (λ e, match e with ClientDo req => Some req | _ => None end) es.

(** The calls to [b.state.exists] in a trace. *)
Definition exists_checks (es : list Event) : list string :=
  omap (λ e, match e with StateExists s => Some s | _ => None end) es.

(** The states given to [validateAccessToken] in a trace. *)
Definition validations_of (es : list Event) : list string :=
  omap (λ e, match e with ValidateAccessToken s _ => Some s | _ => None end) es.

(** The query of the initial redirect in the words of the specification:
    [state], [client_id] and [redirect_uri] always; [nonce], [scope] and
    [response_type] unless disabled; [login_hint] if the request has one;
    nothing else. *)
Definition spec_redirect_query (b : IdentityProvider) (reqPath state nonce_ : string)
    (additional_scopes login_hint : option string) (k : string) : option (list string) :=
  if bool_decide (k = "state") then Some [state]
  else if bool_decide (k = "client_id") then Some [ClientID (config b)]
  else if bool_decide (k = "redirect_uri")
  then Some [reqPath +:+ (if JsCallbackEnabled (config b)
                          then "/authorization-code-js-callback"
                          else "/authorization-code-callback")]
  else if bool_decide (k = "nonce")
  then (if disableNonce b then None else Some [nonce_])
  else if bool_decide (k = "scope")
  then (if disableScope b then None
        else Some [strings.Join
                     (Scopes (config b) ++
                      match additional_scopes with
                      | Some a => strings.Split a " "
                      | None => []
                      end)%list " "])
  else if bool_decide (k = "response_type")
  then (if disableResponseType b then None
        else Some [strings.Join (ResponseType (config b)) " "])
  else if bool_decide (k = "login_hint") then (λ v, [v]) <$> login_hint
  else None.

(** A complete identity has a stable subject. *)
Definition identity_complete (m : gmap string JSON) : bool :=
  bool_decide (is_Some (m !! "sub")).

(** Sample data for the concrete runs below. *)
Module Sample.

Definition cfg (driver : string) (cookie : bool) : Config :=
  {| Driver := driver; ClientID := "cid"; ClientSecret := "sec";
     Scopes := ["openid"; "email"]; ResponseType := ["code"];
     JsCallbackEnabled := false;
     IdentityTokenCookieEnabled := cookie; IdentityTokenCookieName := "id" |}.

Definition provider (driver : string) (noNonce noGrantType : bool) : IdentityProvider :=
  {| config := cfg driver false;
     authorizationURL := "https://as.example/authorize";
     tokenURL := "https://as.example/token";
     disableNonce := noNonce; disableScope := false; disableResponseType := false;
     disablePassGrantType := noGrantType; enableAcceptHeader := false;
     requiredTokenFields := ["access_token"; "token_type"] |}.

(** A token response [{"access_token": "A", "id_token": "J", "token_type": "Bearer"}]. *)
Definition envelope : gmap string JSON :=
  <["access_token" := JString "A"]>
    (<["id_token" := JString "J"]> (<["token_type" := JString "Bearer"]> ∅)).

(** A token response [{"access_token": "A"}]. *)
Definition short_envelope : gmap string JSON := <["access_token" := JString "A"]> ∅.

(** A token response
    [{"error": {"message": "bad code", "code": 100}, "error_description": "d"}]. *)
Definition error_object : gmap string JSON :=
  <["error" := JObject [("message", JString "bad code"); ("code", JNumber "100")]]>
    (<["error_description" := JString "d"]> ∅).

Definition nonce32 : string := "nnnnnnnnnnnnnnnnnnnnnnnnnnnnnnnn".

(** Claims of a verified [id_token] without a subject. *)
Definition claims_no_sub : gmap string JSON :=
  <["email" := JString "u1@x"]> (<["nonce" := JString nonce32]> ∅).

Definition client (body : string) : http.Client :=
  {| http.Do := λ _, Ok {| http.ReadAll := Ok body |} |}.

(** The token endpoint answers with a body that decodes to [data]; the
    verifier accepts every token with the claims [claims]; the claims
    endpoint yields a subject; user info fails when [userinfo_fails], and
    the groups always fail. *)
Definition env (data claims : gmap string JSON) (userinfo_fails : bool) : Env :=
  {| path_Join := λ elems, strings.Join elems "/";
     uuid_New := λ _, "6ba7b810-9dad-11d1-80b4-00c04fd430c8";
     random_char := λ _ _, "n"%char;
     url_Parse := λ u, Ok {| http.Location := u; http.RawQuery := "" |};
     json_Unmarshal := λ _, Ok data;
     newBrowser := Ok (client "{}");
     verify_id_token := λ _, Ok claims;
     fetchClaims := λ _, Ok (<["sub" := JString "u1"]> ∅);
     fetchUserInfo := λ _ m,
       (m, if userinfo_fails then Some (Foreign "connection refused") else None);
     fetchUserGroups := λ _ m, (m, Some (Foreign "connection refused")) |}.

Definition response : Response :=
  {| Code := 0; Payload := None; RedirectURL := "";
     Cookie := {| Enabled := false; Name := ""; Payload_ := "" |} |}.

Definition world (s : gmap string FlowState) : World :=
  {| b_state := s; r_Response := response; calls := []; draws := 0; now := 1700000000 |}.

(** A world with an empty store. *)
Definition fresh : World := world ∅.

Definition uuid : string := "6ba7b810-9dad-11d1-80b4-00c04fd430c8".

(** A store with one outstanding flow. *)
Definition one_flow : gmap string FlowState :=
  <[uuid := {| nonce := Some nonce32; code := None; created_at := 1700000000 |}]> ∅.

Definition request (q : list (string * string)) : Request :=
  {| ID := "req-1"; SessionID := "sess-1"; BaseURL := "https://rp.example";
     BasePath := "/auth"; Method := "oauth2"; Realm := "generic"; Query := q |}.

(** The callback [?code=c&state=<uuid>]. *)
Definition callback : Request := request [("code", "c"); ("state", uuid)].

(** An OpenID Connect provider, and a server whose tokens verify. *)
Definition oidc : IdentityProvider := provider "generic" false false.
Definition oidc_env : Env := env envelope claims_no_sub false.

(** The same server when the user-info endpoint is down. *)
Definition oidc_env_userinfo_down : Env := env envelope claims_no_sub true.

(** A token response without an [id_token],
    [{"access_token": "A", "token_type": "Bearer"}], and a server that sends
    it while its user-info endpoint is down. *)
Definition oauth_envelope : gmap string JSON :=
  <["access_token" := JString "A"]> (<["token_type" := JString "Bearer"]> ∅).
Definition oauth_env_userinfo_down : Env := env oauth_envelope claims_no_sub true.

(** A server that answers the exchange with an error object. *)
Definition error_env : Env := env error_object claims_no_sub false.

End Sample.

(** ** The phases of a callback, named *)

(** The exchange of the configured driver (lines 168-173). *)
Definition driver_exchange (env : Env) (b : IdentityProvider)
  : string → string → string → M (result (gmap string JSON)) :=
  if bool_decide (Driver (config b) = "facebook")
  then fetchFacebookAccessToken env b
  else fetchAccessToken env b.

(** The request that lines 330-341 build for the parsed token URL [u]. *)
Definition generic_request (b : IdentityProvider) (u : http.URL)
    (redirectURI state code_ : string) : http.Request :=
  let body := url.Encode (token_params b redirectURI state code_) in
  let req := {| http.Method := "POST"; http.URL_ := u;
                http.Header_ := ∅; http.Body := Some body |} in
  let req := if enableAcceptHeader b
             then http.Header_Set "Accept" "application/json" req else req in
  let req := http.Header_Add "Content-Type" "application/x-www-form-urlencoded" req in
  http.Header_Add "Content-Length" (pretty (String.length body)) req.

(** The request that lines 406-416 build. *)
Definition facebook_request (b : IdentityProvider) (u : http.URL)
    (redirectURI code_ : string) : http.Request :=
  let req := {| http.Method := "GET"; http.URL_ := u;
                http.Header_ := ∅; http.Body := None |} in
  let req := http.set_RawQuery (url.Encode (facebook_token_params b redirectURI code_)) req in
  if enableAcceptHeader b
  then http.Header_Set "Accept" "application/json" req else req.

(** Lines 189-237: the claims of the token envelope, then the claims
    phase. *)
Definition claims_step (env : Env) (b : IdentityProvider) (state : string)
    (accessToken : gmap string JSON) : M (option error) :=
  claims ← (if claims_from_endpoints (Driver (config b))
            then
              got ← b_fetchClaims env accessToken;
              match got with
              | Err err =>
                  mret (Err (WithArgs ErrIdentityProviderOauthFetchClaimsFailed [AErr err]))
              | Ok m => mret (Ok m)
              end
            else
              got ← validateAccessToken env b state accessToken;
              match got with
              | Err err =>
                  mret (Err (WithArgs ErrIdentityProviderOauthValidateAccessTokenFailed
                               [AErr err]))
              | Ok m => mret (Ok m)
              end);
  match claims with
  | Err err => mret (Some err)
  | Ok m => claims_phase env b accessToken m
  end.

(** The calls of a trace that verify a token or fetch claims, user info or
    groups. *)
Definition is_claim_call (e : Event) : bool :=
  match e with
  | ValidateAccessToken _ _ | FetchClaims _ | FetchUserInfo _ _ | FetchUserGroups _ _ => true
  | _ => false
  end.

Definition claim_calls (es : list Event) : list Event := filter (λ e, is_claim_call e) es.

(** The calls of a trace to the store. *)
Definition is_store_call (e : Event) : bool :=
  match e with
  | StateExists _ | StateAddCode _ _ | StateAdd _ _ => true
  | _ => false
  end.

Definition store_calls (es : list Event) : list Event := filter (λ e, is_store_call e) es.

(** The world when the claims phase is over: the payload, the code 200 and
    the last debug record. *)
Definition finished (m : gmap string JSON) (w : World) : World :=
  record_calls [LogDebug "decoded claims from OAuth 2.0 authorization server access token"]
    (with_Response (with_Code http.StatusOK) (with_Response (with_Payload m) w)).

(** The calls of the claims phase up to the identity cookie. *)
Definition claims_phase_calls (env : Env) (accessToken m : gmap string JSON) : list Event :=
  ([FetchUserInfo accessToken m]
   ++ match (fetchUserInfo env accessToken m).2 with
      | Some _ => [LogDebug "failed fetching user info"]
      | None => []
      end
   ++ [FetchUserGroups accessToken (fetchUserInfo env accessToken m).1]
   ++ match (fetchUserGroups env accessToken (fetchUserInfo env accessToken m).1).2 with
      | Some _ => [LogDebug "failed fetching user groups"]
      | None => []
      end)%list.

(** The call that yields the claims of an envelope: the claims endpoints
    for the drivers that have them, the verification of the [id_token]
    otherwise. *)
Definition claims_call (b : IdentityProvider) (state : string)
    (accessToken : gmap string JSON) : Event :=
  if claims_from_endpoints (Driver (config b))
  then FetchClaims accessToken
  else ValidateAccessToken state accessToken.

(** The parameters of the query that [Authenticate] reads. *)
Definition observed_params : list string :=
  ["access_token"; "id_token"; "code"; "state"; "error"; "error_description";
   "login_hint"; "additional_scopes"].

(** Further sample data: servers that fail in one place. *)
Module Cases.

Definition with_browser (nb : result http.Client) (e : Env) : Env :=
  {| path_Join := path_Join e; uuid_New := uuid_New e; random_char := random_char e;
     url_Parse := url_Parse e; json_Unmarshal := json_Unmarshal e;
     newBrowser := nb;
     verify_id_token := verify_id_token e; fetchClaims := fetchClaims e;
     fetchUserInfo := fetchUserInfo e; fetchUserGroups := fetchUserGroups e |}.

Definition with_fetchClaims (f : gmap string JSON → result (gmap string JSON)) (e : Env)
  : Env :=
  {| path_Join := path_Join e; uuid_New := uuid_New e; random_char := random_char e;
     url_Parse := url_Parse e; json_Unmarshal := json_Unmarshal e;
     newBrowser := newBrowser e;
     verify_id_token := verify_id_token e; fetchClaims := f;
     fetchUserInfo := fetchUserInfo e; fetchUserGroups := fetchUserGroups e |}.

(** The browser cannot be made. *)
Definition no_browser : Env :=
  with_browser (Err (Foreign "no trusted roots")) Sample.oidc_env.

(** The token endpoint cannot be reached. *)
Definition unreachable : Env :=
  with_browser (Ok {| http.Do := λ _, Err (Foreign "connection refused") |})
    Sample.oidc_env.

(** The claims endpoint is down. *)
Definition claims_down : Env :=
  with_fetchClaims (λ _, Err (Foreign "connection refused")) Sample.oidc_env.


(** A token response whose [id_token] is a number. *)
Definition numeric_id_token : gmap string JSON :=
  <["access_token" := JString "A"]>
    (<["id_token" := JNumber "5"]> (<["token_type" := JString "Bearer"]> ∅)).

(** A provider with the identity cookie enabled. *)
Definition with_cookie (driver : string) : IdentityProvider :=
  {| config := Sample.cfg driver true;
     authorizationURL := "https://as.example/authorize";
     tokenURL := "https://as.example/token";
     disableNonce := false; disableScope := false; disableResponseType := false;
     disablePassGrantType := false; enableAcceptHeader := true;
     requiredTokenFields := ["access_token"; "token_type"] |}.

Definition token_url : http.URL :=
  {| http.Location := "https://as.example/token"; http.RawQuery := "" |}.

Definition callback_uri : string :=
  "https://rp.example/auth/oauth2/generic/authorization-code-callback".

End Cases.

(** * Properties *)

(** ** The query of the inbound request *)

Section Query.

Import url.

Lemma values_of_snoc q kv k :
  values_of (q ++ [kv]) k
  = (values_of q k ++ if decide (kv.1 = k) then [kv.2] else [])%list.
Proof.
  unfold values_of. rewrite filter_app, fmap_app. f_equal.
  rewrite filter_cons, filter_nil. by destruct (decide (kv.1 = k)).
Qed.

(** [Query()] maps a key to its values, and never to an empty list. *)
Lemma Query_lookup q k :
  Query q !! k = match values_of q k with [] => None | vs => Some vs end.
Proof.
  unfold Query. induction q as [|kv q IH] using rev_ind; [done|].
  rewrite foldl_app, values_of_snoc. cbn [foldl]. unfold Add at 1.
  destruct (decide (kv.1 = k)) as [->|Hne].
  - rewrite lookup_insert_eq, IH. destruct (values_of q _); simpl; done.
  - rewrite lookup_insert_ne, IH by done. by rewrite app_nil_r.
Qed.

(** So reading [reqParams[k][0]] after the test of existence never
    panics. *)
Lemma param_spec q k :
  param (Query q) k = mret (has_param q k, default "" (query_get q k)).
Proof.
  unfold param, has_param, query_get. rewrite Query_lookup.
  by destruct (values_of q k).
Qed.

End Query.

(** ** Reading a trace *)

Lemma exists_checks_app es1 es2 :
  exists_checks (es1 ++ es2) = (exists_checks es1 ++ exists_checks es2)%list.
Proof. apply omap_app. Qed.

Lemma validations_of_app es1 es2 :
  validations_of (es1 ++ es2) = (validations_of es1 ++ validations_of es2)%list.
Proof. apply omap_app. Qed.

Lemma requests_of_app es1 es2 :
  requests_of (es1 ++ es2) = (requests_of es1 ++ requests_of es2)%list.
Proof. apply omap_app. Qed.

Lemma requests_of_no_request es :
  Forall (λ e, no_request e ∧ no_exists_check e) es → requests_of es = [].
Proof.
  induction 1 as [|e es [He _] _ IH]; [done|].
  destruct e; simpl in *; try done.
Qed.

(** ** The store and the random strings *)

Lemma length_string_of_list_ascii l : String.length (string_of_list_ascii l) = length l.
Proof. induction l as [|c l IH]; simpl; congruence. Qed.

(** The string has the length asked for. *)
Lemma GetRandomString_length src n : String.length (GetRandomString src n) = n.
Proof.
  unfold GetRandomString.
  by rewrite length_string_of_list_ascii, length_map, length_seq.
Qed.

Lemma exists_true state (s : gmap string FlowState) :
  store.exists_ state s = true ↔ is_Some (s !! state).
Proof. unfold store.exists_. by rewrite bool_decide_eq_true. Qed.

Lemma exists_false state (s : gmap string FlowState) :
  s !! state = None → store.exists_ state s = false.
Proof.
  intros H. unfold store.exists_. rewrite H.
  apply bool_decide_eq_false_2. by intros [? ?].
Qed.

(** No operation of the store that the engine calls removes an entry. *)
Lemma add_keeps state nonce_ t (s : gmap string FlowState) k :
  is_Some (s !! k) → is_Some (store.add state nonce_ t s !! k).
Proof.
  intros Hk. unfold store.add. case_match; [done|].
  destruct (decide (state = k)) as [->|]; [by rewrite lookup_insert_eq|].
  by rewrite lookup_insert_ne.
Qed.

Lemma add_live state nonce_ t (s : gmap string FlowState) :
  is_Some (store.add state nonce_ t s !! state).
Proof.
  unfold store.add. case_match eqn:E; [by apply exists_true|].
  by rewrite lookup_insert_eq.
Qed.

Lemma addCode_keeps state code_ (s : gmap string FlowState) k :
  is_Some (s !! k) → is_Some (store.addCode state code_ s !! k).
Proof.
  intros Hk. unfold store.addCode. repeat case_match; try done.
  destruct (decide (state = k)) as [->|]; [by rewrite lookup_insert_eq|].
  by rewrite lookup_insert_ne.
Qed.

(** ** Running a computation *)

Section Run.

Lemma run_bind {A B} (m : M A) (f : A → M B) w :
  (m ≫= f) w = match m w with
               | (Ret a, w') => f a w'
               | (Panic msg, w') => (Panic msg, w')
               end.
Proof. reflexivity. Qed.

Lemma run_ret {A} (a : A) w : (mret a : M A) w = (Ret a, w).
Proof. reflexivity. Qed.

Lemma run_emit e w : emit e w = (Ret tt, record_calls [e] w).
Proof. reflexivity. Qed.

Lemma run_Debug msg w : Debug msg w = (Ret tt, record_calls [LogDebug msg] w).
Proof. reflexivity. Qed.

Lemma run_get_state w : get_state w = (Ret (b_state w), w).
Proof. reflexivity. Qed.

Lemma run_get_now w : get_now w = (Ret (now w), w).
Proof. reflexivity. Qed.

Lemma run_put_state s w : put_state s w = (Ret tt, with_state s w).
Proof. reflexivity. Qed.

Lemma run_draw w : draw w = (Ret (draws w), drawn w).
Proof. reflexivity. Qed.

Lemma run_update_Response f w : update_Response f w = (Ret tt, with_Response f w).
Proof. reflexivity. Qed.

Lemma run_set_Code c w : set_Code c w = (Ret tt, with_Response (with_Code c) w).
Proof. reflexivity. Qed.

Lemma run_set_Payload m w : set_Payload m w = (Ret tt, with_Response (with_Payload m) w).
Proof. reflexivity. Qed.

Lemma run_set_RedirectURL u w :
  set_RedirectURL u w = (Ret tt, with_Response (with_RedirectURL u) w).
Proof. reflexivity. Qed.

Lemma run_set_Cookie n p w :
  set_Cookie n p w = (Ret tt, with_Response (with_Cookie n p) w).
Proof. reflexivity. Qed.

End Run.

Create Rewrite HintDb run.

#[local] Hint Rewrite @run_bind @run_ret run_emit run_Debug run_get_state run_get_now
  run_put_state run_draw run_update_Response run_set_Code run_set_Payload
  run_set_RedirectURL run_set_Cookie : run.

(** Reading a field of a world or of a response after an update. *)
Ltac fields :=
  cbn [b_state r_Response calls draws now record_calls with_Response with_state drawn received
       Code Payload RedirectURL Cookie with_Code with_Payload with_RedirectURL with_Cookie
       fst snd].

(** Running a computation step by step. *)
Ltac run := repeat (progress (autorewrite with run; cbv beta iota)).

(** ** Runs that frame the store *)

Section Frame.

Context (P : Event → Prop).

Lemma frame_refl w : frame P w w.
Proof. split; [done|]. exists []. by rewrite app_nil_r. Qed.

Lemma frame_trans w1 w2 w3 : frame P w1 w2 → frame P w2 w3 → frame P w1 w3.
Proof.
  intros [Hs1 (es1 & Hc1 & HP1)] [Hs2 (es2 & Hc2 & HP2)]. split; [congruence|].
  exists (es1 ++ es2)%list. split.
  - by rewrite Hc2, Hc1, app_assoc.
  - by apply Forall_app.
Qed.

Lemma framed_ret {A} (a : A) : framed P (mret a).
Proof. intros w. apply frame_refl. Qed.

Lemma framed_panic {A} msg : framed P (panic (A:=A) msg).
Proof. intros w. apply frame_refl. Qed.

Lemma framed_bind {A B} (m : M A) (f : A → M B) :
  framed P m → (∀ a, framed P (f a)) → framed P (m ≫= f).
Proof.
  intros Hm Hf w. specialize (Hm w). unfold mbind, M_bind.
  destruct (m w) as [[a|msg] w']; [|done].
  eapply frame_trans; [exact Hm|apply Hf].
Qed.

Lemma framed_emit e : P e → framed P (emit e).
Proof.
  intros He w. split; [done|]. exists [e]. split; [done|]. by apply Forall_singleton.
Qed.

Lemma framed_update_Response f : framed P (update_Response f).
Proof. intros w. split; [done|]. exists []. by rewrite app_nil_r. Qed.

Lemma framed_get_state : framed P get_state.
Proof. intros w. apply frame_refl. Qed.

End Frame.

Lemma framed_weaken {A} (P Q : Event → Prop) (m : M A) :
  (∀ e, P e → Q e) → framed P m → framed Q m.
Proof.
  intros HPQ Hm w. destruct (Hm w) as [Hs (es & Hc & HP)].
  split; [done|]. exists es. split; [done|]. eapply Forall_impl; eauto.
Qed.

(** One step of a proof that a computation frames the store: the shape of
    the computation decides. *)
Ltac framed_step :=
  first
    [ apply framed_ret
    | apply framed_panic
    | apply framed_update_Response
    | apply framed_get_state
    | apply framed_emit; first [exact I | by split]
    | apply framed_bind; [|intros ?]
    | progress cbv beta
    | case_match ].

Ltac framed := repeat framed_step.

(** ** The engine follows its table *)

Section Engine.

Context (env : Env) (b : IdentityProvider).

Lemma framed_check_token_response P data :
  framed P (check_token_response b data).
Proof. unfold check_token_response, to_string. framed. Qed.

Lemma framed_validateAccessToken P state data :
  P (ValidateAccessToken state data) →
  framed P (validateAccessToken env b state data).
Proof.
  intros HP. unfold validateAccessToken.
  apply framed_bind; [by apply framed_emit|intros _]. framed.
Qed.

Lemma framed_claims_phase accessToken m :
  framed (λ e, no_request e ∧ no_exists_check e) (claims_phase env b accessToken m).
Proof.
  unfold claims_phase, b_fetchUserInfo, b_fetchUserGroups, Debug, to_string,
    set_Cookie, set_Payload, set_Code.
  framed.
Qed.

Lemma framed_fetchAccessToken redirectURI state code_ :
  framed any_call (fetchAccessToken env b redirectURI state code_).
Proof.
  unfold fetchAccessToken, b_newBrowser, cli_Do, Debug.
  repeat first [ apply framed_check_token_response | framed_step ].
Qed.

Lemma framed_fetchFacebookAccessToken redirectURI state code_ :
  framed any_call (fetchFacebookAccessToken env b redirectURI state code_).
Proof.
  unfold fetchFacebookAccessToken, b_newBrowser, cli_Do, Debug.
  repeat first [ apply framed_check_token_response | framed_step ].
Qed.

(** After the exchange, nothing is given to [cli.Do] by the engine
    itself, and the store is not asked again. *)
Lemma framed_after_exchange state accessToken :
  framed (λ e, no_request e ∧ no_exists_check e)
    (claims ← (if claims_from_endpoints (Driver (config b))
               then
                 got ← b_fetchClaims env accessToken;
                 match got with
                 | Err err =>
                     mret (Err (WithArgs ErrIdentityProviderOauthFetchClaimsFailed
                                  [AErr err]))
                 | Ok m => mret (Ok m)
                 end
               else
                 got ← validateAccessToken env b state accessToken;
                 match got with
                 | Err err =>
                     mret (Err (WithArgs ErrIdentityProviderOauthValidateAccessTokenFailed
                                  [AErr err]))
                 | Ok m => mret (Ok m)
                 end);
     match claims with
     | Err err => mret (Some err)
     | Ok m => claims_phase env b accessToken m
     end).
Proof.
  unfold b_fetchClaims.
  repeat first [ apply framed_claims_phase
               | apply framed_validateAccessToken; by split
               | framed_step ].
Qed.

Lemma framed_authorization_code_flow reqPath state code_ :
  framed any_call (authorization_code_flow env b reqPath state code_).
Proof.
  unfold authorization_code_flow, Debug.
  repeat first [ apply framed_fetchAccessToken
               | apply framed_fetchFacebookAccessToken
               | eapply framed_weaken; [|apply framed_after_exchange]; done
               | framed_step ].
Qed.

Lemma framed_implicit_flow state a j :
  framed (λ e, no_request e ∧ no_exists_check e) (implicit_flow env b state a j).
Proof.
  unfold implicit_flow, Debug, set_Payload, set_Code, set_Cookie.
  repeat first [ apply framed_validateAccessToken; by split | framed_step ].
Qed.

(** The loop over the required fields: the key it stops at is required
    and absent; when it runs to its end, every required key is present. *)
Lemma missing_field_spec ks (data : gmap string JSON) :
  match missing_field ks data with
  | Some k => k ∈ ks ∧ data !! k = None
  | None => ∀ k, k ∈ ks → is_Some (data !! k)
  end.
Proof.
  induction ks as [|k ks IH]; simpl.
  - intros k Hk. by apply elem_of_nil in Hk.
  - destruct (data !! k) eqn:Hk.
    + destruct (missing_field ks data) as [k'|].
      * destruct IH. split; [by apply list_elem_of_further|done].
      * intros k' [->|Hin]%elem_of_cons; [by rewrite Hk|by apply IH].
    + split; [apply list_elem_of_here|done].
Qed.

(** The checks of the token response read the data only. *)
Lemma check_token_response_run data :
  ∃ o, ∀ w, check_token_response b data w = (o, w).
Proof.
  unfold check_token_response, to_string.
  repeat case_match; eexists; intros w; reflexivity.
Qed.

Lemma check_token_response_world data w :
  (check_token_response b data w).2 = w
  ∧ ∀ w', (check_token_response b data w').1 = (check_token_response b data w).1.
Proof.
  destruct (check_token_response_run data) as [o Ho].
  split; [|intros w']; by rewrite !Ho.
Qed.

(** Up to the decoded body, the two exchanges end in the same checks. *)
Lemma fetchAccessToken_decoded redirectURI state code_ w cli u resp body data :
  newBrowser env = Ok cli →
  url_Parse env (tokenURL b) = Ok u →
  (∀ req, http.Do cli req = Ok resp) →
  http.ReadAll resp = Ok body →
  json_Unmarshal env body = Ok data →
  (fetchAccessToken env b redirectURI state code_ w).1
  = (check_token_response b data w).1.
Proof.
  intros Hcli Hu Hdo Hbody Hdata.
  unfold fetchAccessToken, b_newBrowser, http_NewRequest, cli_Do.
  run. rewrite Hcli, Hu. run. rewrite Hdo, Hbody. run. rewrite Hdata. run.
  apply check_token_response_world.
Qed.

Lemma fetchFacebookAccessToken_decoded redirectURI state code_ w cli u resp body data :
  newBrowser env = Ok cli →
  url_Parse env (tokenURL b) = Ok u →
  (∀ req, http.Do cli req = Ok resp) →
  http.ReadAll resp = Ok body →
  json_Unmarshal env body = Ok data →
  (fetchFacebookAccessToken env b redirectURI state code_ w).1
  = (check_token_response b data w).1.
Proof.
  intros Hcli Hu Hdo Hbody Hdata.
  unfold fetchFacebookAccessToken, b_newBrowser, http_NewRequest, cli_Do.
  run. rewrite Hcli, Hu. run. rewrite Hdo, Hbody. run. rewrite Hdata.
  apply check_token_response_world.
Qed.

(** What the code does with an [error] key: without a description the
    error value is kept as it is, string or not; with a description the
    two must be strings, and the type assertion panics otherwise. *)
Lemma check_token_response_error data w e :
  data !! "error" = Some e →
  (check_token_response b data w).1
  = match data !! "error_description" with
    | None =>
        Ret (Err (WithArgs ErrIdentityProviderOauthGetAccessTokenFailed [AVal e]))
    | Some v =>
        match assert_string e, assert_string v with
        | Some es, Some vs =>
            Ret (Err (WithArgs ErrIdentityProviderOauthGetAccessTokenFailedDetailed
                        [AVal (JString es); AVal (JString vs)]))
        | _, _ => Panic "interface conversion: interface {} is not string"
        end
    end.
Proof.
  intros He. unfold check_token_response, to_string. rewrite He.
  destruct (data !! "error_description") as [v|]; [|by destruct e].
  destruct e, v; reflexivity.
Qed.

(** The verifier returns a verdict and leaves one call in the trace. *)
Lemma validateAccessToken_run state data w :
  ∃ verdict,
    validateAccessToken env b state data w
    = (Ret verdict, record_calls [ValidateAccessToken state data] w).
Proof.
  unfold validateAccessToken. run.
  repeat first [progress run | progress fields | case_match]; eauto.
Qed.

Lemma implicit_flow_run state a j w :
  ∃ rest,
    calls (implicit_flow env b state a j w).2
    = (calls w ++
       ValidateAccessToken state
         (<["access_token" := JString a]> (<["id_token" := JString j]> ∅)) :: rest)%list
    ∧ exists_checks rest = []
    ∧ validations_of rest = []
    ∧ ((implicit_flow env b state a j w).1 = Ret None
       ∨ ∃ err, (implicit_flow env b state a j w).1
                = Ret (Some (WithArgs ErrIdentityProviderOauthValidateAccessTokenFailed
                               [AErr err]))).
Proof.
  unfold implicit_flow.
  destruct (validateAccessToken_run state
              (<["access_token" := JString a]> (<["id_token" := JString j]> ∅)) w)
    as [[m|err] Hv]; run; rewrite Hv; run.
  - exists [LogDebug "decoded claims from OAuth 2.0 authorization server access token"].
    destruct (IdentityTokenCookieEnabled (config b)); run; fields;
      rewrite <- app_assoc; eauto 10.
  - exists []. fields. eauto 10.
Qed.

Lemma Authenticate_classify r w :
  Authenticate env b r w =
  match classify (Query r) with
  | AuthorizationError e d =>
      (Ret (Some match d with
                 | Some d =>
                     WithArgs ErrIdentityProviderOauthAuthorizationFailedDetailed
                       [AVal (JString e); AVal (JString d)]
                 | None =>
                     WithArgs ErrIdentityProviderOauthAuthorizationFailed
                       [AVal (JString e)]
                 end),
       received w)
  | CodeAndState c s =>
      (state_exists s ≫= λ live : bool,
       if live
       then state_addCode s c;; authorization_code_flow env b (reqPath_of env r) s c
       else mret (Some (WithArgs ErrIdentityProviderOauthAuthorizationStateNotFound [])))
        (received w)
  | Implicit a j s => implicit_flow env b s a j (received w)
  | Unprocessable =>
      (Ret (Some (WithArgs ErrIdentityProviderOauthResponseProcessingFailed [])),
       received w)
  | Initial =>
      initiate_flow env b (reqPath_of env r)
        (url.has_param (Query r) "additional_scopes")
        (default "" (url.query_get (Query r) "additional_scopes"))
        (url.has_param (Query r) "login_hint")
        (default "" (url.query_get (Query r) "login_hint"))
        (with_Response (with_Code http.StatusBadRequest) w)
  end.
Proof.
  unfold Authenticate, classify. rewrite !param_spec.
  unfold url.has_param.
  destruct (url.query_get (Query r) "error") as [e|] eqn:He;
    destruct (url.query_get (Query r) "code") as [c|] eqn:Hc;
    destruct (url.query_get (Query r) "state") as [s|] eqn:Hs;
    destruct (url.query_get (Query r) "id_token") as [j|] eqn:Hj;
    destruct (url.query_get (Query r) "access_token") as [a|] eqn:Ha;
    cbv [mbind M_bind mret M_ret set_Code update_Response Debug emit received];
    try reflexivity.
  all: unfold url.query_get; rewrite Query_lookup.
  all: by destruct (url.values_of _ "error_description").
Qed.

Lemma initiate_flow_run reqPath ase asc lhe lh w :
  initiate_flow env b reqPath ase asc lhe lh w
  = (Ret None,
     record_calls [LogDebug "redirecting to OAuth 2.0 endpoint"]
       (with_state
          (store.add (uuid_New env (draws w))
             (GetRandomString (random_char env (S (draws w))) 32) (now w) (b_state w))
          (record_calls
             [StateAdd (uuid_New env (draws w))
                (GetRandomString (random_char env (S (draws w))) 32)]
             (with_Response
                (with_RedirectURL
                   (authorizationURL b +:+ "?" +:+
                    url.Encode
                      (redirect_params b reqPath (uuid_New env (draws w))
                         (GetRandomString (random_char env (S (draws w))) 32)
                         ase asc lhe lh)))
                (drawn (drawn (with_Response (with_Code http.StatusFound) w))))))).
Proof. reflexivity. Qed.

(** The query that the code builds is the one the specification lists. *)
Lemma redirect_params_spec reqPath state nonce_ (a l : option string) k :
  redirect_params b reqPath state nonce_
    (match a with Some _ => true | None => false end) (default "" a)
    (match l with Some _ => true | None => false end) (default "" l)
  !! k
  = spec_redirect_query b reqPath state nonce_ a l k.
Proof.
  unfold redirect_params, spec_redirect_query, url.Set_.
  destruct (decide (k = "state")) as [->|];
    [by destruct (disableNonce b), (disableScope b), (JsCallbackEnabled (config b)),
          (disableResponseType b), a, l; rewrite ?app_nil_r|].
  destruct (decide (k = "client_id")) as [->|];
    [by destruct (disableNonce b), (disableScope b), (JsCallbackEnabled (config b)),
          (disableResponseType b), a, l; rewrite ?app_nil_r|].
  destruct (decide (k = "redirect_uri")) as [->|];
    [by destruct (disableNonce b), (disableScope b), (JsCallbackEnabled (config b)),
          (disableResponseType b), a, l; rewrite ?app_nil_r|].
  destruct (decide (k = "nonce")) as [->|];
    [by destruct (disableNonce b), (disableScope b), (JsCallbackEnabled (config b)),
          (disableResponseType b), a, l; rewrite ?app_nil_r|].
  destruct (decide (k = "scope")) as [->|];
    [by destruct (disableNonce b), (disableScope b), (JsCallbackEnabled (config b)),
          (disableResponseType b), a, l; rewrite ?app_nil_r|].
  destruct (decide (k = "response_type")) as [->|];
    [by destruct (disableNonce b), (disableScope b), (JsCallbackEnabled (config b)),
          (disableResponseType b), a, l; rewrite ?app_nil_r|].
  destruct (decide (k = "login_hint")) as [->|];
    [by destruct (disableNonce b), (disableScope b), (JsCallbackEnabled (config b)),
          (disableResponseType b), a, l; rewrite ?app_nil_r|].
  rewrite !bool_decide_eq_false_2 by done.
  destruct (disableNonce b), (disableScope b), (JsCallbackEnabled (config b)),
    (disableResponseType b), a, l; cbn [negb];
    by rewrite !lookup_insert_ne, lookup_empty.
Qed.

(** C3.  A request with none of [access_token], [id_token], [code],
    [state], [error] is answered with a 302 redirect to the authorization
    URL, whose query is the encoding of exactly the parameters that the
    specification lists: [state], [client_id] and [redirect_uri] always,
    [nonce], [scope] (the configured scopes and the space-separated
    [additional_scopes], joined by spaces) and [response_type] unless
    disabled, [login_hint] if and only if the request has one, and no
    other key. *)
Theorem Authenticate_initial_redirect r w :
  url.query_get (Query r) "access_token" = None →
  url.query_get (Query r) "id_token" = None →
  url.query_get (Query r) "code" = None →
  url.query_get (Query r) "state" = None →
  url.query_get (Query r) "error" = None →
  (Authenticate env b r w).1 = Ret None
  ∧ Code (r_Response (Authenticate env b r w).2) = 302
  ∧ ∃ params : url.Values,
      RedirectURL (r_Response (Authenticate env b r w).2)
      = authorizationURL b +:+ "?" +:+ url.Encode params
      ∧ ∀ k, params !! k
             = spec_redirect_query b (reqPath_of env r) (uuid_New env (draws w))
                 (GetRandomString (random_char env (S (draws w))) 32)
                 (url.query_get (Query r) "additional_scopes")
                 (url.query_get (Query r) "login_hint") k.
Proof.
  intros Ha _ Hc Hs He. rewrite Authenticate_classify. unfold classify.
  rewrite He, Hc, Hs, Ha.
  destruct (url.query_get (Query r) "id_token");
    rewrite initiate_flow_run; fields; (split; [done|split; [done|]]);
    eexists; (split; [reflexivity|]); intros k; apply redirect_params_spec.
Qed.

(** C8, amended.  When a flow starts, the engine registers the minted
    state with the minted nonce, a string of 32 characters, whether or not
    the nonce is disabled; the state being fresh, the entry of the store
    carries that nonce.  What is omitted if and only if the nonce is
    disabled is the [nonce] parameter of the redirect. *)
Theorem Authenticate_registers_nonce r w :
  url.query_get (Query r) "access_token" = None →
  url.query_get (Query r) "code" = None →
  url.query_get (Query r) "state" = None →
  url.query_get (Query r) "error" = None →
  b_state w !! uuid_New env (draws w) = None →
  String.length (GetRandomString (random_char env (S (draws w))) 32) = 32%nat
  ∧ calls (Authenticate env b r w).2
    = (calls w
       ++ [StateAdd (uuid_New env (draws w))
             (GetRandomString (random_char env (S (draws w))) 32);
           LogDebug "redirecting to OAuth 2.0 endpoint"])%list
  ∧ b_state (Authenticate env b r w).2 !! uuid_New env (draws w)
    = Some {| nonce := Some (GetRandomString (random_char env (S (draws w))) 32);
              code := None; created_at := now w |}
  ∧ ∃ params : url.Values,
      RedirectURL (r_Response (Authenticate env b r w).2)
      = authorizationURL b +:+ "?" +:+ url.Encode params
      ∧ params !! "nonce"
        = if disableNonce b then None
          else Some [GetRandomString (random_char env (S (draws w))) 32].
Proof.
  intros Ha Hc Hs He Hfresh. split; [apply GetRandomString_length|].
  rewrite Authenticate_classify. unfold classify. rewrite He, Hc, Hs, Ha.
  destruct (url.query_get (Query r) "id_token");
    rewrite initiate_flow_run; fields;
    (split; [by rewrite <- app_assoc|]);
    (split;
     [unfold store.add; rewrite exists_false by done; apply lookup_insert_eq|]);
    eexists; (split; [reflexivity|]);
    unfold url.has_param; rewrite redirect_params_spec; reflexivity.
Qed.

(** C2, amended.  The engine never removes an entry of the store: a state
    that is live before [Authenticate] is live after it, whatever the
    request and the outcome.  The state minted for an initial redirect is
    live afterwards (as a key of the store, it has one entry).  A
    callback with [code] and [state] for a live state attaches the code
    and does nothing else to the store, so the entry is still there when
    [Authenticate] returns, on success as on failure. *)
Theorem Authenticate_never_consumes r w :
  (∀ s, is_Some (b_state w !! s) → is_Some (b_state (Authenticate env b r w).2 !! s))
  ∧ (url.query_get (Query r) "access_token" = None →
     url.query_get (Query r) "code" = None →
     url.query_get (Query r) "state" = None →
     url.query_get (Query r) "error" = None →
     is_Some (b_state (Authenticate env b r w).2 !! uuid_New env (draws w)))
  ∧ (∀ c s,
       url.query_get (Query r) "error" = None →
       url.query_get (Query r) "code" = Some c →
       url.query_get (Query r) "state" = Some s →
       is_Some (b_state w !! s) →
       b_state (Authenticate env b r w).2 = store.addCode s c (b_state w)
       ∧ is_Some (b_state (Authenticate env b r w).2 !! s)).
Proof.
  assert (Hcb : ∀ c s, b_state ((state_exists s ≫= λ live : bool,
              if live
              then state_addCode s c;;
                   authorization_code_flow env b (reqPath_of env r) s c
              else mret (Some (WithArgs
                     ErrIdentityProviderOauthAuthorizationStateNotFound [])))
             (received w)).2
           = if store.exists_ s (b_state w) then store.addCode s c (b_state w)
             else b_state w).
  { intros c s. unfold state_exists, state_addCode. run. fields.
    destruct (store.exists_ s (b_state w)); run; fields; [|done].
    pose proof (framed_authorization_code_flow (reqPath_of env r) s c
                  (with_state (store.addCode s c (b_state w))
                     (record_calls [StateAddCode s c]
                        (record_calls [StateExists s] (received w))))) as [Hst _].
    destruct (authorization_code_flow _ _ _ _ _ _) as [[?|?] ?]; exact Hst. }
  split; [|split].
  - intros s Hs. rewrite Authenticate_classify.
    destruct (classify (Query r)) as [e d|c s'|a j s'| |]; fields; try done.
    + rewrite Hcb. case_match; [by apply addCode_keeps|done].
    + destruct (framed_implicit_flow s' a j (received w)) as [-> _]. done.
    + rewrite initiate_flow_run. fields. by apply add_keeps.
  - intros Ha Hc Hs He. rewrite Authenticate_classify. unfold classify.
    rewrite He, Hc, Hs, Ha.
    destruct (url.query_get (Query r) "id_token");
      rewrite initiate_flow_run; fields; apply add_live.
  - intros c s He Hc Hs Hlive. rewrite Authenticate_classify. unfold classify.
    rewrite He, Hc, Hs, Hcb.
    rewrite (proj2 (exists_true _ _) Hlive). split; [done|by apply addCode_keeps].
Qed.

(** C4.  A request whose query has an [error] parameter is answered
    with [AuthorizationFailedDetailed] carrying [error] and
    [error_description] when the latter is present, and with
    [AuthorizationFailed] carrying [error] otherwise, whatever else the
    query holds.  The response code is 400, and the only call made is the
    debug record of the response: the store is neither consulted nor
    changed, and nothing is sent. *)
Theorem Authenticate_error_first r w e :
  url.query_get (Query r) "error" = Some e →
  (Authenticate env b r w).1
  = Ret (Some match url.query_get (Query r) "error_description" with
              | Some d =>
                  WithArgs ErrIdentityProviderOauthAuthorizationFailedDetailed
                    [AVal (JString e); AVal (JString d)]
              | None =>
                  WithArgs ErrIdentityProviderOauthAuthorizationFailed
                    [AVal (JString e)]
              end)
  ∧ Code (r_Response (Authenticate env b r w).2) = 400
  ∧ calls (Authenticate env b r w).2
    = (calls w ++ [LogDebug "received OAuth 2.0 response"])%list
  ∧ b_state (Authenticate env b r w).2 = b_state w.
Proof.
  intros He. rewrite Authenticate_classify. unfold classify. rewrite He.
  by destruct (url.query_get (Query r) "error_description").
Qed.

(** C1, amended.  A callback with [code] and [state] and without [error],
    whose state is not live in the store, is answered with
    [AuthorizationStateNotFound] and code 400.  The calls made are the
    debug record and the look-up in the store: no browser is made, no
    request is sent, no token is exchanged, and the store is unchanged. *)
Theorem Authenticate_state_not_found r w c s :
  url.query_get (Query r) "error" = None →
  url.query_get (Query r) "code" = Some c →
  url.query_get (Query r) "state" = Some s →
  b_state w !! s = None →
  (Authenticate env b r w).1
  = Ret (Some (WithArgs ErrIdentityProviderOauthAuthorizationStateNotFound []))
  ∧ Code (r_Response (Authenticate env b r w).2) = 400
  ∧ calls (Authenticate env b r w).2
    = (calls w ++ [LogDebug "received OAuth 2.0 response"; StateExists s])%list
  ∧ b_state (Authenticate env b r w).2 = b_state w.
Proof.
  intros He Hc Hs Hw. rewrite Authenticate_classify. unfold classify.
  rewrite He, Hc, Hs.
  unfold state_exists. run. fields.
  unfold store.exists_. rewrite Hw.
  rewrite bool_decide_eq_false_2 by (intros [? ?]; discriminate).
  run. fields.
  repeat split. by rewrite <- app_assoc.
Qed.

(** C10, amended.  A request with [id_token] and [access_token] and
    without [state] is never answered with [ResponseProcessingFailed], and
    the engine never asks the store whether a state exists.  When the
    request has no [error] parameter either, the engine enters the branch
    of the implicit flow with the empty string as the state, and the token
    validation is called with that state. *)
Theorem Authenticate_implicit_without_state r w a j :
  url.query_get (Query r) "id_token" = Some j →
  url.query_get (Query r) "access_token" = Some a →
  url.query_get (Query r) "state" = None →
  (∀ args, (Authenticate env b r w).1
           ≠ Ret (Some (WithArgs ErrIdentityProviderOauthResponseProcessingFailed args)))
  ∧ exists_checks (calls (Authenticate env b r w).2) = exists_checks (calls w)
  ∧ (url.query_get (Query r) "error" = None →
     Authenticate env b r w = implicit_flow env b "" a j (received w)
     ∧ validations_of (calls (Authenticate env b r w).2)
       = (validations_of (calls w) ++ [""])%list).
Proof.
  intros Hj Ha Hs. rewrite Authenticate_classify. unfold classify.
  rewrite Hj, Ha, Hs.
  destruct (implicit_flow_run "" a j (received w))
    as (rest & Hcalls & Hrest & Hval & Hres).
  destruct (url.query_get (Query r) "error") as [e|].
  - split; [|split]; [| |done].
    + intros args. by destruct (url.query_get (Query r) "error_description").
    + fields. rewrite exists_checks_app. simpl. by rewrite app_nil_r.
  - assert (match url.query_get (Query r) "code" with
            | Some _ | _ => Implicit a j (default "" (None : option string))
            end = Implicit a j "") as -> by by destruct (url.query_get (Query r) "code").
    split; [|split].
    + intros args. destruct Hres as [->|[err ->]]; discriminate.
    + rewrite Hcalls. fields.
      rewrite !exists_checks_app. simpl. by rewrite Hrest, !app_nil_r.
    + intros _. split; [done|]. rewrite Hcalls. fields.
      rewrite !validations_of_app. simpl. by rewrite Hval, !app_nil_r.
Qed.

(** The request of the Facebook exchange. *)
Lemma fetchFacebookAccessToken_request redirectURI state code_ w cli u :
  newBrowser env = Ok cli →
  url_Parse env (tokenURL b) = Ok u →
  ∃ req,
    requests_of (calls (fetchFacebookAccessToken env b redirectURI state code_ w).2)
    = (requests_of (calls w) ++ [req])%list
    ∧ http.Method req = "GET"
    ∧ http.Body req = None
    ∧ http.RawQuery (http.URL_ req)
      = url.Encode (facebook_token_params b redirectURI code_).
Proof.
  intros Hcli Hu.
  unfold fetchFacebookAccessToken, b_newBrowser, http_NewRequest, cli_Do.
  run. rewrite Hcli, Hu. run.
  destruct (enableAcceptHeader b); eexists;
    (split;
     [repeat first [progress run | progress fields | case_match];
      rewrite ?(proj1 (check_token_response_world _ _)); fields;
      rewrite !requests_of_app; simpl; rewrite ?app_nil_r; reflexivity
     |done]).
Qed.

(** The request of the generic exchange. *)
Lemma fetchAccessToken_request redirectURI state code_ w cli u :
  newBrowser env = Ok cli →
  url_Parse env (tokenURL b) = Ok u →
  ∃ req,
    requests_of (calls (fetchAccessToken env b redirectURI state code_ w).2)
    = (requests_of (calls w) ++ [req])%list
    ∧ http.Method req = "POST"
    ∧ http.Body req = Some (url.Encode (token_params b redirectURI state code_)).
Proof.
  intros Hcli Hu.
  unfold fetchAccessToken, b_newBrowser, http_NewRequest, cli_Do.
  run. rewrite Hcli, Hu. run.
  destruct (enableAcceptHeader b); eexists;
    (split;
     [repeat first [progress run | progress fields | case_match];
      rewrite ?(proj1 (check_token_response_world _ _)); fields;
      rewrite !requests_of_app; simpl; rewrite ?app_nil_r; reflexivity
     |done]).
Qed.

(** After the exchange the engine itself sends nothing. *)
Lemma authorization_code_flow_requests reqPath state code_ w :
  requests_of (calls (authorization_code_flow env b reqPath state code_ w).2)
  = requests_of
      (calls ((if bool_decide (Driver (config b) = "facebook")
               then fetchFacebookAccessToken env b
                      (reqPath +:+ "/authorization-code-callback") state code_
               else fetchAccessToken env b
                      (reqPath +:+ "/authorization-code-callback") state code_)
                (record_calls
                   [LogDebug "received OAuth 2.0 code and state from the authorization server"]
                   w)).2).
Proof.
  unfold authorization_code_flow.
  rewrite run_bind, run_Debug. cbv beta iota. rewrite run_bind.
  match goal with
  | |- context [(if bool_decide (Driver (config b) = "facebook") then ?f else ?g) ?w0] =>
      destruct ((if bool_decide (Driver (config b) = "facebook") then f else g) w0)
        as [[[tok|err]|msg] w2]
  end; cbv beta iota.
  - rewrite run_bind, run_Debug. cbv beta iota.
    pose proof (framed_after_exchange state tok
                  (record_calls
                     [LogDebug "received OAuth 2.0 authorization server access token"] w2))
      as [_ (es & Hes & HP)].
    rewrite Hes. fields.
    rewrite !requests_of_app, (requests_of_no_request es HP). simpl.
    by rewrite !app_nil_r.
  - run. fields. rewrite requests_of_app. simpl. by rewrite app_nil_r.
  - done.
Qed.

(** C7, amended.  In a callback, when the browser can be made and the
    token URL parses, the exchange sends one request.  For the driver
    [facebook] it is a GET without a body whose query string encodes
    exactly [client_id], [client_secret], [code] and [redirect_uri], so
    neither [grant_type] nor [state].  For every other driver it is a POST
    whose body encodes a form with [state] and, unless
    [disable_pass_grant_type] is set, [grant_type=authorization_code]. *)
Theorem token_exchange_requests reqPath state code_ w cli u :
  newBrowser env = Ok cli →
  url_Parse env (tokenURL b) = Ok u →
  (Driver (config b) = "facebook" →
   ∃ req,
     requests_of (calls (authorization_code_flow env b reqPath state code_ w).2)
     = (requests_of (calls w) ++ [req])%list
     ∧ http.Method req = "GET"
     ∧ http.Body req = None
     ∧ http.RawQuery (http.URL_ req)
       = url.Encode (facebook_token_params b
                       (reqPath +:+ "/authorization-code-callback") code_))
  ∧ (∀ redirectURI,
       dom (facebook_token_params b redirectURI code_)
       = ({["client_id"; "client_secret"; "code"; "redirect_uri"]} : gset string)
       ∧ facebook_token_params b redirectURI code_ !! "grant_type" = None
       ∧ facebook_token_params b redirectURI code_ !! "state" = None)
  ∧ (Driver (config b) ≠ "facebook" →
     ∃ req,
       requests_of (calls (authorization_code_flow env b reqPath state code_ w).2)
       = (requests_of (calls w) ++ [req])%list
       ∧ http.Method req = "POST"
       ∧ http.Body req
         = Some (url.Encode (token_params b
                               (reqPath +:+ "/authorization-code-callback") state code_)))
  ∧ (∀ redirectURI,
       token_params b redirectURI state code_ !! "state" = Some [state]
       ∧ token_params b redirectURI state code_ !! "grant_type"
         = if disablePassGrantType b then None else Some ["authorization_code"]).
Proof.
  intros Hcli Hu. split; [|split; [|split]].
  - intros Hd. rewrite authorization_code_flow_requests.
    rewrite bool_decide_eq_true_2 by done.
    destruct (fetchFacebookAccessToken_request
                (reqPath +:+ "/authorization-code-callback") state code_
                (record_calls
                   [LogDebug "received OAuth 2.0 code and state from the authorization server"]
                   w) cli u Hcli Hu) as (req & Hreq & Hrest).
    exists req. split; [|done]. rewrite Hreq. fields.
    rewrite requests_of_app. simpl. by rewrite app_nil_r.
  - intros redirectURI. unfold facebook_token_params, url.Set_.
    split; [|split]; [|done|done].
    rewrite !dom_insert_L, dom_empty_L. set_solver.
  - intros Hd. rewrite authorization_code_flow_requests.
    rewrite bool_decide_eq_false_2 by done.
    destruct (fetchAccessToken_request
                (reqPath +:+ "/authorization-code-callback") state code_
                (record_calls
                   [LogDebug "received OAuth 2.0 code and state from the authorization server"]
                   w) cli u Hcli Hu) as (req & Hreq & Hrest).
    exists req. split; [|done]. rewrite Hreq. fields.
    rewrite requests_of_app. simpl. by rewrite app_nil_r.
  - intros redirectURI. unfold token_params, url.Set_.
    by destruct (disablePassGrantType b).
Qed.

(** C6.  When the body of the token response decodes to an object
    without an [error] key, each of the two exchanges answers, if some
    required field is absent, with
    [AuthorizationServerResponseFieldNotFound] naming a required field
    that is absent, and, if all required fields are present, with the
    decoded object itself. *)
Theorem token_exchange_required_fields redirectURI state code_ w cli u resp body data :
  newBrowser env = Ok cli →
  url_Parse env (tokenURL b) = Ok u →
  (∀ req, http.Do cli req = Ok resp) →
  http.ReadAll resp = Ok body →
  json_Unmarshal env body = Ok data →
  data !! "error" = None →
  ∀ exchange,
    exchange = fetchAccessToken env b ∨ exchange = fetchFacebookAccessToken env b →
    ((∃ k, k ∈ requiredTokenFields b ∧ data !! k = None) →
     ∃ k, k ∈ requiredTokenFields b ∧ data !! k = None
          ∧ (exchange redirectURI state code_ w).1
            = Ret (Err (WithArgs
                          ErrIdentityProviderAuthorizationServerResponseFieldNotFound
                          [AVal (JString k)])))
    ∧ ((∀ k, k ∈ requiredTokenFields b → is_Some (data !! k)) →
       (exchange redirectURI state code_ w).1 = Ret (Ok data)).
Proof.
  intros Hcli Hu Hdo Hbody Hdata Herr exchange Hex.
  assert ((exchange redirectURI state code_ w).1 = (check_token_response b data w).1)
    as ->.
  { destruct Hex as [->| ->];
      eauto using fetchAccessToken_decoded, fetchFacebookAccessToken_decoded. }
  unfold check_token_response. rewrite Herr.
  pose proof (missing_field_spec (requiredTokenFields b) data) as Hm.
  destruct (missing_field (requiredTokenFields b) data) as [k|]; split.
  - intros _. exists k. by destruct Hm.
  - intros Hall. destruct Hm as [Hin Hk]. apply Hall in Hin. rewrite Hk in Hin.
    by destruct Hin.
  - intros (k & Hin & Hk). apply Hm in Hin. rewrite Hk in Hin. by destruct Hin.
  - done.
Qed.

(** C9, amended.  In the claims phase of a callback with a code and a
    state, a failure of the user-info step and a failure of the group step
    are both logged and swallowed, whether or not the identity is
    complete: the engine returns no error, the response has code 200 and
    the claim map as the two steps left it.  (The identity cookie is left
    aside: the statement is for an envelope whose [id_token], if the
    cookie is enabled, is a string.) *)
Theorem claims_phase_swallows accessToken m w :
  (IdentityTokenCookieEnabled (config b) = true →
   ∀ v, accessToken !! "id_token" = Some v → is_Some (assert_string v)) →
  (claims_phase env b accessToken m w).1 = Ret None
  ∧ Code (r_Response (claims_phase env b accessToken m w).2) = 200
  ∧ Payload (r_Response (claims_phase env b accessToken m w).2)
    = Some (fetchUserGroups env accessToken (fetchUserInfo env accessToken m).1).1
  ∧ calls (claims_phase env b accessToken m w).2
    = (calls w
       ++ [FetchUserInfo accessToken m]
       ++ match (fetchUserInfo env accessToken m).2 with
          | Some _ => [LogDebug "failed fetching user info"]
          | None => []
          end
       ++ [FetchUserGroups accessToken (fetchUserInfo env accessToken m).1]
       ++ match (fetchUserGroups env accessToken (fetchUserInfo env accessToken m).1).2 with
          | Some _ => [LogDebug "failed fetching user groups"]
          | None => []
          end
       ++ [LogDebug "decoded claims from OAuth 2.0 authorization server access token"])%list.
Proof.
  intros Hcookie. unfold claims_phase, b_fetchUserInfo, b_fetchUserGroups. run.
  destruct (fetchUserInfo env accessToken m) as [m1 err1]. run. fields.
  assert (∀ w0, ∃ w1,
            (if IdentityTokenCookieEnabled (config b)
             then match accessToken !! "id_token" with
                  | Some v =>
                      payload ← to_string v;
                      set_Cookie (IdentityTokenCookieName (config b)) payload
                  | None => mret tt
                  end
             else mret tt) w0 = (Ret tt, w1) ∧ calls w1 = calls w0) as Hstep.
  { intros w0. destruct (IdentityTokenCookieEnabled (config b)); [|by exists w0].
    destruct (accessToken !! "id_token") as [v|] eqn:Hv; [|by exists w0].
    destruct (Hcookie eq_refl v eq_refl) as [p Hp]. unfold to_string. rewrite Hp.
    run. eauto. }
  destruct err1 as [e1|]; run;
    destruct (fetchUserGroups env accessToken m1) as [m2 [e2|]]; run; fields;
    match goal with
    | |- context [?step ?w0] =>
        match type of w0 with
        | World => destruct (Hstep w0) as (w1 & -> & Hcalls)
        end
    end;
    run; fields; rewrite Hcalls; fields; rewrite <- ?app_assoc; done.
Qed.

End Engine.

(** C4 at a sample request: [?error=access_denied&error_description=user+cancelled&code=c&state=s]. *)
Lemma Authenticate_error_first_witness :
  (Authenticate (Sample.env Sample.envelope Sample.claims_no_sub false)
     (Sample.provider "generic" false false)
     (Sample.request [("error", "access_denied"); ("error_description", "user cancelled");
                      ("code", "c"); ("state", Sample.uuid)])
     (Sample.world Sample.one_flow)).1
  = Ret (Some (WithArgs ErrIdentityProviderOauthAuthorizationFailedDetailed
                 [AVal (JString "access_denied"); AVal (JString "user cancelled")])).
Proof.
  pose proof (Authenticate_error_first
                (Sample.env Sample.envelope Sample.claims_no_sub false)
                (Sample.provider "generic" false false)
                (Sample.request [("error", "access_denied");
                                 ("error_description", "user cancelled");
                                 ("code", "c"); ("state", Sample.uuid)])
                (Sample.world Sample.one_flow) "access_denied" eq_refl) as [H _].
  exact H.
Defined.

(** C1 at a sample request: [?code=c&state=unknown] against an empty store. *)
Lemma Authenticate_state_not_found_witness :
  (Authenticate (Sample.env Sample.envelope Sample.claims_no_sub false)
     (Sample.provider "generic" false false)
     (Sample.request [("code", "c"); ("state", "unknown")])
     Sample.fresh).1
  = Ret (Some (WithArgs ErrIdentityProviderOauthAuthorizationStateNotFound [])).
Proof.
  pose proof (Authenticate_state_not_found
                (Sample.env Sample.envelope Sample.claims_no_sub false)
                (Sample.provider "generic" false false)
                (Sample.request [("code", "c"); ("state", "unknown")])
                Sample.fresh "c" "unknown" eq_refl eq_refl eq_refl eq_refl) as [H _].
  exact H.
Defined.

(** C1 as stated fails: with an [error] parameter next to [code] and an
    unknown [state], the answer is [AuthorizationFailed]. *)
Lemma Authenticate_state_not_found_counterexample :
  ¬ (∀ env b r w c s,
       url.query_get (Query r) "code" = Some c →
       url.query_get (Query r) "state" = Some s →
       b_state w !! s = None →
       (Authenticate env b r w).1
       = Ret (Some (WithArgs ErrIdentityProviderOauthAuthorizationStateNotFound []))).
Proof.
  intros H.
  specialize (H (Sample.env Sample.envelope Sample.claims_no_sub false)
                (Sample.provider "generic" false false)
                (Sample.request [("code", "c"); ("state", "unknown");
                                 ("error", "access_denied")])
                Sample.fresh "c" "unknown" eq_refl eq_refl eq_refl).
  vm_compute in H. discriminate H.
Qed.

(** C3 at a sample request: [?login_hint=bob&additional_scopes=groups+offline]. *)
Lemma Authenticate_initial_redirect_witness :
  (Authenticate Sample.oidc_env Sample.oidc
     (Sample.request [("login_hint", "bob"); ("additional_scopes", "groups offline")])
     Sample.fresh).1 = Ret None
  ∧ Code (r_Response
            (Authenticate Sample.oidc_env Sample.oidc
               (Sample.request [("login_hint", "bob");
                                ("additional_scopes", "groups offline")])
               Sample.fresh).2) = 302.
Proof.
  destruct (Authenticate_initial_redirect Sample.oidc_env Sample.oidc
              (Sample.request [("login_hint", "bob");
                               ("additional_scopes", "groups offline")])
              Sample.fresh eq_refl eq_refl eq_refl eq_refl eq_refl)
    as (Hret & Hcode & _).
  split; [exact Hret|exact Hcode].
Defined.

(** The redirect of that request, in full. *)
Example sample_redirect_url :
  RedirectURL
    (r_Response
       (Authenticate Sample.oidc_env Sample.oidc
          (Sample.request [("login_hint", "bob"); ("additional_scopes", "groups offline")])
          Sample.fresh).2)
  = "https://as.example/authorize?client_id=cid&login_hint=bob&nonce=nnnnnnnnnnnnnnnnnnnnnnnnnnnnnnnn&redirect_uri=https%3A%2F%2Frp.example%2Fauth%2Foauth2%2Fgeneric%2Fauthorization-code-callback&response_type=code&scope=openid+email+groups+offline&state=6ba7b810-9dad-11d1-80b4-00c04fd430c8".
Proof. vm_compute. reflexivity. Qed.

(** C8 at a sample request, the nonce being disabled. *)
Lemma Authenticate_registers_nonce_witness :
  b_state (Authenticate Sample.oidc_env (Sample.provider "generic" true false)
             (Sample.request []) Sample.fresh).2 !! Sample.uuid
  = Some {| nonce := Some Sample.nonce32; code := None; created_at := 1700000000 |}.
Proof.
  destruct (Authenticate_registers_nonce Sample.oidc_env
              (Sample.provider "generic" true false) (Sample.request [])
              Sample.fresh eq_refl eq_refl eq_refl eq_refl
              ltac:(vm_compute; reflexivity))
    as (_ & _ & Hentry & _).
  exact Hentry.
Defined.

(** C8 as stated fails: with the nonce disabled, the entry registered for
    the flow still carries the nonce. *)
Lemma Authenticate_registers_nonce_counterexample :
  ¬ (∀ env b r w fs,
       url.query_get (Query r) "access_token" = None →
       url.query_get (Query r) "code" = None →
       url.query_get (Query r) "state" = None →
       url.query_get (Query r) "error" = None →
       b_state (Authenticate env b r w).2 !! uuid_New env (draws w) = Some fs →
       (nonce fs = None ↔ disableNonce b = true)).
Proof.
  intros H.
  destruct (H Sample.oidc_env (Sample.provider "generic" true false) (Sample.request [])
              Sample.fresh
              {| nonce := Some Sample.nonce32; code := None; created_at := 1700000000 |}
              eq_refl eq_refl eq_refl eq_refl ltac:(vm_compute; reflexivity))
    as [_ Hno].
  specialize (Hno eq_refl). discriminate Hno.
Qed.

(** C2 at a sample callback for the one outstanding flow. *)
Lemma Authenticate_never_consumes_witness :
  is_Some (b_state (Authenticate Sample.oidc_env Sample.oidc (Sample.request [])
                      Sample.fresh).2 !! Sample.uuid)
  ∧ b_state (Authenticate Sample.oidc_env Sample.oidc Sample.callback
               (Sample.world Sample.one_flow)).2
    = store.addCode Sample.uuid "c" Sample.one_flow.
Proof.
  split.
  - destruct (Authenticate_never_consumes Sample.oidc_env Sample.oidc (Sample.request [])
                Sample.fresh) as (_ & Hinit & _).
    exact (Hinit eq_refl eq_refl eq_refl eq_refl).
  - destruct (Authenticate_never_consumes Sample.oidc_env Sample.oidc Sample.callback
                (Sample.world Sample.one_flow)) as (_ & _ & Hcb).
    destruct (Hcb "c" Sample.uuid eq_refl eq_refl eq_refl
                ltac:(vm_compute; eexists; reflexivity)) as [Hstore _].
    exact Hstore.
Defined.

(** C2 as stated fails: after a successful callback (here for the driver
    [github], whose claims come from the endpoints), the entry of the state
    is still in the store. *)
Lemma Authenticate_never_consumes_counterexample :
  ¬ (∀ env b r w c s,
       url.query_get (Query r) "code" = Some c →
       url.query_get (Query r) "state" = Some s →
       (Authenticate env b r w).1 = Ret None →
       b_state (Authenticate env b r w).2 !! s = None).
Proof.
  intros H.
  specialize (H Sample.oidc_env (Sample.provider "github" false false) Sample.callback
                (Sample.world Sample.one_flow) "c" Sample.uuid eq_refl eq_refl
                ltac:(vm_compute; reflexivity)).
  vm_compute in H. discriminate H.
Qed.

(** C10 at a sample request: [?id_token=J&access_token=A]. *)
Lemma Authenticate_implicit_without_state_witness :
  validations_of
    (calls (Authenticate Sample.oidc_env Sample.oidc
              (Sample.request [("id_token", "J"); ("access_token", "A")])
              Sample.fresh).2)
  = [""].
Proof.
  destruct (Authenticate_implicit_without_state Sample.oidc_env Sample.oidc
              (Sample.request [("id_token", "J"); ("access_token", "A")])
              Sample.fresh "A" "J" eq_refl eq_refl eq_refl) as (_ & _ & Himpl).
  destruct (Himpl eq_refl) as [_ Hval]. exact Hval.
Defined.

(** C10 as stated fails: with an [error] parameter next to [id_token] and
    [access_token], the token validation is not called at all. *)
Lemma Authenticate_implicit_without_state_counterexample :
  ¬ (∀ env b r w a j,
       url.query_get (Query r) "id_token" = Some j →
       url.query_get (Query r) "access_token" = Some a →
       url.query_get (Query r) "state" = None →
       validations_of (calls (Authenticate env b r w).2)
       = (validations_of (calls w) ++ [""])%list).
Proof.
  intros H.
  specialize (H Sample.oidc_env Sample.oidc
                (Sample.request [("id_token", "J"); ("access_token", "A");
                                 ("error", "access_denied")])
                Sample.fresh "A" "J" eq_refl eq_refl eq_refl).
  vm_compute in H. discriminate H.
Qed.

(** C9 at a sample envelope: the user-info endpoint and the group endpoint
    are both down. *)
Lemma claims_phase_swallows_witness :
  (claims_phase Sample.oidc_env_userinfo_down Sample.oidc Sample.envelope
     Sample.claims_no_sub (Sample.world Sample.one_flow)).1 = Ret None
  ∧ Code (r_Response
            (claims_phase Sample.oidc_env_userinfo_down Sample.oidc Sample.envelope
               Sample.claims_no_sub (Sample.world Sample.one_flow)).2) = 200.
Proof.
  destruct (claims_phase_swallows Sample.oidc_env_userinfo_down Sample.oidc
              Sample.envelope Sample.claims_no_sub (Sample.world Sample.one_flow))
    as (Hret & Hcode & _).
  - intros Hcookie. discriminate Hcookie.
  - split; [exact Hret|exact Hcode].
Defined.

(** C9 as stated fails.  First run, the generic driver: the verified
    [id_token] yields claims without a subject and the user-info endpoint is
    down.  Second run, the driver [github]: the envelope has no [id_token]
    at all and the user-info endpoint is down.  Both callbacks end with code
    200 and no error, not with [FetchClaimsFailed]. *)
Lemma userinfo_failure_swallowed_counterexample :
  (identity_complete Sample.claims_no_sub = false
   ∧ (fetchUserInfo Sample.oidc_env_userinfo_down Sample.envelope Sample.claims_no_sub).2
     = Some (Foreign "connection refused")
   ∧ (Authenticate Sample.oidc_env_userinfo_down Sample.oidc Sample.callback
        (Sample.world Sample.one_flow)).1 = Ret None
   ∧ Code (r_Response
             (Authenticate Sample.oidc_env_userinfo_down Sample.oidc Sample.callback
                (Sample.world Sample.one_flow)).2) = 200
   ∧ Payload (r_Response
                (Authenticate Sample.oidc_env_userinfo_down Sample.oidc Sample.callback
                   (Sample.world Sample.one_flow)).2) = Some Sample.claims_no_sub)
  ∧ (Sample.oauth_envelope !! "id_token" = None
     ∧ (fetchUserInfo Sample.oauth_env_userinfo_down Sample.oauth_envelope
          (<["sub" := JString "u1"]> ∅)).2
       = Some (Foreign "connection refused")
     ∧ (Authenticate Sample.oauth_env_userinfo_down (Sample.provider "github" false false)
          Sample.callback (Sample.world Sample.one_flow)).1 = Ret None
     ∧ Code (r_Response
               (Authenticate Sample.oauth_env_userinfo_down
                  (Sample.provider "github" false false)
                  Sample.callback (Sample.world Sample.one_flow)).2) = 200).
Proof. vm_compute. repeat match goal with |- _ ∧ _ => split end; reflexivity. Qed.

(** C5, the defect.  The token endpoint answers
    [{"error": {"message": "bad code", "code": 100}, "error_description": "d"}]:
    both exchanges panic on the type assertion [data["error"].(string)]
    instead of returning [GetAccessTokenFailedDetailed], and so does
    [Authenticate]. *)
Theorem token_exchange_error_object_panics :
  (fetchAccessToken Sample.error_env Sample.oidc "https://rp.example/cb" "s" "c"
     Sample.fresh).1
  = Panic "interface conversion: interface {} is not string"
  ∧ (fetchFacebookAccessToken Sample.error_env (Sample.provider "facebook" false false)
       "https://rp.example/cb" "s" "c" Sample.fresh).1
    = Panic "interface conversion: interface {} is not string"
  ∧ (Authenticate Sample.error_env Sample.oidc Sample.callback
       (Sample.world Sample.one_flow)).1
    = Panic "interface conversion: interface {} is not string".
Proof. vm_compute. repeat split. Qed.

(** C6 at two sample responses: one with every required field, one without
    [token_type]. *)
Lemma token_exchange_required_fields_witness :
  (fetchAccessToken Sample.oidc_env Sample.oidc "https://rp.example/cb" "s" "c"
     Sample.fresh).1 = Ret (Ok Sample.envelope)
  ∧ ∃ k, (fetchFacebookAccessToken
            (Sample.env Sample.short_envelope Sample.claims_no_sub false)
            (Sample.provider "facebook" false false) "https://rp.example/cb" "s" "c"
            Sample.fresh).1
         = Ret (Err (WithArgs ErrIdentityProviderAuthorizationServerResponseFieldNotFound
                       [AVal (JString k)])).
Proof.
  split.
  - destruct (token_exchange_required_fields Sample.oidc_env Sample.oidc
                "https://rp.example/cb" "s" "c" Sample.fresh
                (Sample.client "{}")
                {| http.Location := "https://as.example/token"; http.RawQuery := "" |}
                {| http.ReadAll := Ok "{}" |} "{}" Sample.envelope
                eq_refl eq_refl (λ _, eq_refl) eq_refl eq_refl eq_refl
                (fetchAccessToken Sample.oidc_env Sample.oidc) (or_introl eq_refl))
      as [_ Hall].
    apply Hall.
    intros k [->|[->|[]%elem_of_nil]%elem_of_cons]%elem_of_cons;
      vm_compute; eexists; reflexivity.
  - destruct (token_exchange_required_fields
                (Sample.env Sample.short_envelope Sample.claims_no_sub false)
                (Sample.provider "facebook" false false)
                "https://rp.example/cb" "s" "c" Sample.fresh
                (Sample.client "{}")
                {| http.Location := "https://as.example/token"; http.RawQuery := "" |}
                {| http.ReadAll := Ok "{}" |} "{}" Sample.short_envelope
                eq_refl eq_refl (λ _, eq_refl) eq_refl eq_refl eq_refl
                (fetchFacebookAccessToken
                   (Sample.env Sample.short_envelope Sample.claims_no_sub false)
                   (Sample.provider "facebook" false false)) (or_intror eq_refl))
      as [Hmiss _].
    destruct Hmiss as (k & _ & _ & Hk).
    + exists "token_type". split; [|reflexivity].
      apply list_elem_of_further, list_elem_of_here.
    + exists k. exact Hk.
Defined.

(** C7 at a sample callback for the driver [facebook]. *)
Lemma token_exchange_requests_witness :
  ∃ req,
    requests_of
      (calls (authorization_code_flow Sample.oidc_env
                (Sample.provider "facebook" false false)
                "https://rp.example/auth/oauth2/generic" Sample.uuid "c"
                (Sample.world Sample.one_flow)).2)
    = [req]
    ∧ http.Method req = "GET".
Proof.
  destruct (token_exchange_requests Sample.oidc_env
              (Sample.provider "facebook" false false)
              "https://rp.example/auth/oauth2/generic" Sample.uuid "c"
              (Sample.world Sample.one_flow)
              (Sample.client "{}")
              {| http.Location := "https://as.example/token"; http.RawQuery := "" |}
              eq_refl eq_refl) as (Hfb & _).
  destruct (Hfb eq_refl) as (req & Hreq & Hget & _).
  exists req. split; [exact Hreq|exact Hget].
Defined.

(** C7 as stated fails in its last part: with [disable_pass_grant_type]
    set, the form that the generic exchange posts has no [grant_type]. *)
Lemma token_exchange_requests_counterexample :
  http.Body <$>
    requests_of
      (calls (Authenticate Sample.oidc_env (Sample.provider "generic" false true)
                Sample.callback (Sample.world Sample.one_flow)).2)
  = [Some "client_id=cid&client_secret=sec&code=c&redirect_uri=https%3A%2F%2Frp.example%2Fauth%2Foauth2%2Fgeneric%2Fauthorization-code-callback&state=6ba7b810-9dad-11d1-80b4-00c04fd430c8"].
Proof. vm_compute. reflexivity. Qed.

(** ** The scenarios of the specification, run on the sample data *)

(** A callback of the OpenID Connect flow: the code is exchanged, the
    [id_token] verified against the nonce of the state, and the claims are
    the payload of a 200 response. *)
Example scenario_oidc_callback :
  (Authenticate Sample.oidc_env Sample.oidc Sample.callback
     (Sample.world Sample.one_flow)).1 = Ret None
  ∧ Code (r_Response (Authenticate Sample.oidc_env Sample.oidc Sample.callback
                        (Sample.world Sample.one_flow)).2) = 200
  ∧ validations_of (calls (Authenticate Sample.oidc_env Sample.oidc Sample.callback
                             (Sample.world Sample.one_flow)).2) = [Sample.uuid].
Proof. vm_compute. repeat match goal with |- _ ∧ _ => split end; reflexivity. Qed.

(** The same callback when the nonce registered with the state is not the
    one of the token. *)
Example scenario_nonce_mismatch :
  (Authenticate Sample.oidc_env Sample.oidc Sample.callback
     (Sample.world (<[Sample.uuid := {| nonce := Some "other"; code := None;
                                        created_at := 0 |}]> ∅))).1
  = Ret (Some (WithArgs ErrIdentityProviderOauthValidateAccessTokenFailed
                 [AErr (Foreign "nonce mismatch")])).
Proof. vm_compute. reflexivity. Qed.

(** The Facebook exchange of a callback: one GET, the parameters in the
    query string. *)
Example scenario_facebook_exchange :
  (λ req, (http.Method req, http.RawQuery (http.URL_ req), http.Body req)) <$>
    requests_of
      (calls (Authenticate Sample.oidc_env (Sample.provider "facebook" false false)
                Sample.callback (Sample.world Sample.one_flow)).2)
  = [("GET",
      "client_id=cid&client_secret=sec&code=c&redirect_uri=https%3A%2F%2Frp.example%2Fauth%2Foauth2%2Fgeneric%2Fauthorization-code-callback",
      None)].
Proof. vm_compute. reflexivity. Qed.

(** * Further properties of the engine *)

(** ** The exchange, step by step *)

Lemma record_calls_record_calls es1 es2 w :
  record_calls es2 (record_calls es1 w) = record_calls (es1 ++ es2) w.
Proof. unfold record_calls. simpl. by rewrite app_assoc. Qed.

Lemma claim_calls_app es1 es2 :
  claim_calls (es1 ++ es2) = (claim_calls es1 ++ claim_calls es2)%list.
Proof. apply filter_app. Qed.

Lemma store_calls_app es1 es2 :
  store_calls (es1 ++ es2) = (store_calls es1 ++ store_calls es2)%list.
Proof. apply filter_app. Qed.

Section Exchange.
Context (env : Env) (b : IdentityProvider).

(** The steps of an exchange after the request is built, which the two
    exchanges share but for the second debug record. *)
Lemma fetchAccessToken_steps redirectURI state code_ w :
  fetchAccessToken env b redirectURI state code_ w =
  match newBrowser env with
  | Err e => (Ret (Err e), record_calls [NewBrowser] w)
  | Ok cli =>
      match url_Parse env (tokenURL b) with
      | Err e => (Ret (Err e), record_calls [NewBrowser] w)
      | Ok u =>
          let req := generic_request b u redirectURI state code_ in
          match http.Do cli req with
          | Err e => (Ret (Err e), record_calls [NewBrowser; ClientDo req] w)
          | Ok resp =>
              match http.ReadAll resp with
              | Err e => (Ret (Err e), record_calls [NewBrowser; ClientDo req] w)
              | Ok body =>
                  match json_Unmarshal env body with
                  | Err e =>
                      (Ret (Err e),
                       record_calls
                         [NewBrowser; ClientDo req;
                          LogDebug "OAuth 2.0 access token response received"] w)
                  | Ok data =>
                      ((check_token_response b data w).1,
                       record_calls
                         [NewBrowser; ClientDo req;
                          LogDebug "OAuth 2.0 access token response received";
                          LogDebug "OAuth 2.0 access token response decoded"] w)
                  end
              end
          end
      end
  end.
Proof.
  unfold fetchAccessToken, b_newBrowser, http_NewRequest, cli_Do, generic_request.
  run. destruct (newBrowser env) as [cli|e]; run; [|done].
  destruct (url_Parse env (tokenURL b)) as [u|e]; run; [|done].
  cbv zeta.
  match goal with |- context [http.Do cli ?r] => destruct (http.Do cli r) as [resp|e] end;
    run; [|by rewrite record_calls_record_calls].
  destruct (http.ReadAll resp) as [body|e]; run; [|by rewrite record_calls_record_calls].
  destruct (json_Unmarshal env body) as [data|e]; run;
    [|by rewrite !record_calls_record_calls].
  destruct (check_token_response_run b data) as [o Ho].
  by rewrite !Ho, !record_calls_record_calls.
Qed.

Lemma fetchFacebookAccessToken_steps redirectURI state code_ w :
  fetchFacebookAccessToken env b redirectURI state code_ w =
  match newBrowser env with
  | Err e => (Ret (Err e), record_calls [NewBrowser] w)
  | Ok cli =>
      match url_Parse env (tokenURL b) with
      | Err e => (Ret (Err e), record_calls [NewBrowser] w)
      | Ok u =>
          let req := facebook_request b u redirectURI code_ in
          match http.Do cli req with
          | Err e => (Ret (Err e), record_calls [NewBrowser; ClientDo req] w)
          | Ok resp =>
              match http.ReadAll resp with
              | Err e => (Ret (Err e), record_calls [NewBrowser; ClientDo req] w)
              | Ok body =>
                  match json_Unmarshal env body with
                  | Err e =>
                      (Ret (Err e),
                       record_calls
                         [NewBrowser; ClientDo req;
                          LogDebug "OAuth 2.0 access token response received"] w)
                  | Ok data =>
                      ((check_token_response b data w).1,
                       record_calls
                         [NewBrowser; ClientDo req;
                          LogDebug "OAuth 2.0 access token response received"] w)
                  end
              end
          end
      end
  end.
Proof.
  unfold fetchFacebookAccessToken, b_newBrowser, http_NewRequest, cli_Do, facebook_request.
  run. destruct (newBrowser env) as [cli|e]; run; [|done].
  destruct (url_Parse env (tokenURL b)) as [u|e]; run; [|done].
  cbv zeta.
  match goal with |- context [http.Do cli ?r] => destruct (http.Do cli r) as [resp|e] end;
    run; [|by rewrite record_calls_record_calls].
  destruct (http.ReadAll resp) as [body|e]; run; [|by rewrite record_calls_record_calls].
  destruct (json_Unmarshal env body) as [data|e]; run;
    [|by rewrite !record_calls_record_calls].
  destruct (check_token_response_run b data) as [o Ho].
  by rewrite !Ho, !record_calls_record_calls.
Qed.

(** The exchange of the configured driver reads nothing of the world: its
    outcome and its calls are the same wherever it runs; it gives at most
    one request to the client, and calls neither the store nor the claim
    fetchers. *)
Lemma driver_exchange_pure redirectURI state code_ :
  ∃ o es,
    (∀ w, driver_exchange env b redirectURI state code_ w = (o, record_calls es w))
    ∧ (length (requests_of es) ≤ 1)%nat
    ∧ claim_calls es = [] ∧ store_calls es = []
    ∧ exists_checks es = [] ∧ validations_of es = [].
Proof.
  unfold driver_exchange.
  destruct (newBrowser env) as [cli|e1] eqn:Hcli.
  2:{ exists (Ret (Err e1)), [NewBrowser]. split; [|by repeat split; simpl; lia].
      intros w. case_bool_decide;
        [rewrite fetchFacebookAccessToken_steps|rewrite fetchAccessToken_steps];
        by rewrite Hcli. }
  destruct (url_Parse env (tokenURL b)) as [u|e2] eqn:Hu.
  2:{ exists (Ret (Err e2)), [NewBrowser]. split; [|by repeat split; simpl; lia].
      intros w. case_bool_decide;
        [rewrite fetchFacebookAccessToken_steps|rewrite fetchAccessToken_steps];
        by rewrite Hcli, Hu. }
  case_bool_decide.
  - destruct (http.Do cli (facebook_request b u redirectURI code_)) as [resp|e3] eqn:Hdo.
    2:{ eexists _, _. split;
          [intros w; rewrite fetchFacebookAccessToken_steps, Hcli, Hu; cbv zeta;
           rewrite Hdo; reflexivity|by repeat split; simpl; lia]. }
    destruct (http.ReadAll resp) as [body|e4] eqn:Hbody.
    2:{ eexists _, _. split;
          [intros w; rewrite fetchFacebookAccessToken_steps, Hcli, Hu; cbv zeta;
           rewrite Hdo, Hbody; reflexivity|by repeat split; simpl; lia]. }
    destruct (json_Unmarshal env body) as [data|e5] eqn:Hdata.
    2:{ eexists _, _. split;
          [intros w; rewrite fetchFacebookAccessToken_steps, Hcli, Hu; cbv zeta;
           rewrite Hdo, Hbody, Hdata; reflexivity|by repeat split; simpl; lia]. }
    destruct (check_token_response_run b data) as [o Ho].
    exists o. eexists. split;
      [intros w; rewrite fetchFacebookAccessToken_steps, Hcli, Hu; cbv zeta;
       rewrite Hdo, Hbody, Hdata, Ho; reflexivity|by repeat split; simpl; lia].
  - destruct (http.Do cli (generic_request b u redirectURI state code_))
      as [resp|e3] eqn:Hdo.
    2:{ eexists _, _. split;
          [intros w; rewrite fetchAccessToken_steps, Hcli, Hu; cbv zeta;
           rewrite Hdo; reflexivity|by repeat split; simpl; lia]. }
    destruct (http.ReadAll resp) as [body|e4] eqn:Hbody.
    2:{ eexists _, _. split;
          [intros w; rewrite fetchAccessToken_steps, Hcli, Hu; cbv zeta;
           rewrite Hdo, Hbody; reflexivity|by repeat split; simpl; lia]. }
    destruct (json_Unmarshal env body) as [data|e5] eqn:Hdata.
    2:{ eexists _, _. split;
          [intros w; rewrite fetchAccessToken_steps, Hcli, Hu; cbv zeta;
           rewrite Hdo, Hbody, Hdata; reflexivity|by repeat split; simpl; lia]. }
    destruct (check_token_response_run b data) as [o Ho].
    exists o. eexists. split;
      [intros w; rewrite fetchAccessToken_steps, Hcli, Hu; cbv zeta;
       rewrite Hdo, Hbody, Hdata, Ho; reflexivity|by repeat split; simpl; lia].
Qed.

(** The flow of a callback, step by step. *)
Lemma authorization_code_flow_steps reqPath state code_ w :
  authorization_code_flow env b reqPath state code_ w =
  match driver_exchange env b (reqPath +:+ "/authorization-code-callback") state code_
          (record_calls
             [LogDebug "received OAuth 2.0 code and state from the authorization server"] w)
  with
  | (Ret (Ok accessToken), w') =>
      claims_step env b state accessToken
        (record_calls [LogDebug "received OAuth 2.0 authorization server access token"] w')
  | (Ret (Err err), w') =>
      (Ret (Some (WithArgs ErrIdentityProviderOauthFetchAccessTokenFailed [AErr err])),
       record_calls
         [LogDebug "failed fetching OAuth 2.0 access token from the authorization server"] w')
  | (Panic msg, w') => (Panic msg, w')
  end.
Proof.
  unfold authorization_code_flow, driver_exchange, claims_step.
  rewrite run_bind, run_Debug. cbv beta iota. rewrite run_bind.
  case_bool_decide;
    match goal with
    | |- context [match ?x with (o, w') => _ end] => destruct x as [[[tok|err]|msg] w2]
    end; cbv beta iota; try reflexivity.
Qed.

End Exchange.

(** ** The claims phase, step by step *)

Section ClaimsPhase.
Context (env : Env) (b : IdentityProvider).

Lemma claims_phase_steps accessToken m w :
  claims_phase env b accessToken m w =
  let m2 := (fetchUserGroups env accessToken (fetchUserInfo env accessToken m).1).1 in
  let w2 := record_calls (claims_phase_calls env accessToken m) w in
  match (if IdentityTokenCookieEnabled (config b) then accessToken !! "id_token" else None) with
  | Some v =>
      match assert_string v with
      | Some payload =>
          (Ret None,
           finished m2
             (with_Response (with_Cookie (IdentityTokenCookieName (config b)) payload) w2))
      | None => (Panic "interface conversion: interface {} is not string", w2)
      end
  | None => (Ret None, finished m2 w2)
  end.
Proof.
  unfold claims_phase, claims_phase_calls, b_fetchUserInfo, b_fetchUserGroups, to_string,
    finished.
  run. destruct (fetchUserInfo env accessToken m) as [m1 [e1|]]; cbn [fst snd]; run;
    destruct (fetchUserGroups env accessToken m1) as [m2 [e2|]]; cbn [fst snd]; run;
    cbv zeta;
    destruct (IdentityTokenCookieEnabled (config b)); run;
    try (destruct (accessToken !! "id_token") as [v|]; run;
         [destruct (assert_string v); unfold panic; run|]);
    rewrite ?record_calls_record_calls; reflexivity.
Qed.

End ClaimsPhase.

(** ** What a run leaves in the response *)

Section Outcome.
Context (env : Env) (b : IdentityProvider).

Lemma claims_phase_outcome accessToken m w :
  ((claims_phase env b accessToken m w).1 = Ret None
   ∧ Code (r_Response (claims_phase env b accessToken m w).2) = 200
   ∧ is_Some (Payload (r_Response (claims_phase env b accessToken m w).2))
   ∧ RedirectURL (r_Response (claims_phase env b accessToken m w).2)
     = RedirectURL (r_Response w))
  ∨ ((∃ msg, (claims_phase env b accessToken m w).1 = Panic msg)
     ∧ r_Response (claims_phase env b accessToken m w).2 = r_Response w).
Proof.
  rewrite claims_phase_steps. cbv zeta.
  destruct (if IdentityTokenCookieEnabled (config b) then _ else _) as [v|];
    [destruct (assert_string v)|]; fields; eauto 10.
Qed.

Lemma claims_step_outcome state accessToken w :
  ((claims_step env b state accessToken w).1 = Ret None
   ∧ Code (r_Response (claims_step env b state accessToken w).2) = 200
   ∧ is_Some (Payload (r_Response (claims_step env b state accessToken w).2))
   ∧ RedirectURL (r_Response (claims_step env b state accessToken w).2)
     = RedirectURL (r_Response w))
  ∨ ((claims_step env b state accessToken w).1 ≠ Ret None
     ∧ r_Response (claims_step env b state accessToken w).2 = r_Response w).
Proof.
  unfold claims_step, b_fetchClaims. rewrite run_bind.
  destruct (claims_from_endpoints (Driver (config b))).
  - run. destruct (fetchClaims env accessToken) as [m|e]; run.
    + destruct (claims_phase_outcome accessToken m (record_calls [FetchClaims accessToken] w))
        as [H|[[msg Hmsg] H]]; [by left|right].
      split; [by rewrite Hmsg|done].
    + by right.
  - rewrite run_bind.
    destruct (validateAccessToken_run env b state accessToken w) as [[m|e] ->]; run.
    + destruct (claims_phase_outcome accessToken m
                  (record_calls [ValidateAccessToken state accessToken] w))
        as [H|[[msg Hmsg] H]]; [by left|right].
      split; [by rewrite Hmsg|done].
    + by right.
Qed.

Lemma callback_steps reqPath c s w :
  (state_exists s ≫= λ live : bool,
   if live
   then state_addCode s c;; authorization_code_flow env b reqPath s c
   else mret (Some (WithArgs ErrIdentityProviderOauthAuthorizationStateNotFound [])))
    (received w)
  = if store.exists_ s (b_state w)
    then authorization_code_flow env b reqPath s c
           (with_state (store.addCode s c (b_state w))
              (record_calls [StateAddCode s c]
                 (record_calls [StateExists s] (received w))))
    else (Ret (Some (WithArgs ErrIdentityProviderOauthAuthorizationStateNotFound [])),
          record_calls [StateExists s] (received w)).
Proof.
  unfold state_exists, state_addCode. run. fields.
  destruct (store.exists_ s (b_state w)); by run.
Qed.

(** The response after the flow of a callback. *)
Lemma authorization_code_flow_outcome reqPath s c w :
  ((authorization_code_flow env b reqPath s c w).1 = Ret None
   ∧ Code (r_Response (authorization_code_flow env b reqPath s c w).2) = 200
   ∧ is_Some (Payload (r_Response (authorization_code_flow env b reqPath s c w).2))
   ∧ RedirectURL (r_Response (authorization_code_flow env b reqPath s c w).2)
     = RedirectURL (r_Response w))
  ∨ ((authorization_code_flow env b reqPath s c w).1 ≠ Ret None
     ∧ r_Response (authorization_code_flow env b reqPath s c w).2 = r_Response w).
Proof.
  rewrite authorization_code_flow_steps.
  destruct (driver_exchange_pure env b (reqPath +:+ "/authorization-code-callback") s c)
    as (o & es & -> & _).
  destruct o as [[tok|err]|msg]; [|by right|by right].
  match goal with |- context [claims_step env b s tok ?w0] =>
    destruct (claims_step_outcome s tok w0) as [H|H] end; [by left|by right].
Qed.

Lemma implicit_flow_outcome s a j w :
  ((implicit_flow env b s a j w).1 = Ret None
   ∧ Code (r_Response (implicit_flow env b s a j w).2) = 200
   ∧ is_Some (Payload (r_Response (implicit_flow env b s a j w).2))
   ∧ RedirectURL (r_Response (implicit_flow env b s a j w).2) = RedirectURL (r_Response w)
   ∧ Cookie (r_Response (implicit_flow env b s a j w).2)
     = if IdentityTokenCookieEnabled (config b)
       then {| Enabled := true; Name := IdentityTokenCookieName (config b); Payload_ := j |}
       else Cookie (r_Response w))
  ∨ ((∃ cause, (implicit_flow env b s a j w).1
               = Ret (Some (WithArgs ErrIdentityProviderOauthValidateAccessTokenFailed
                              [AErr cause])))
     ∧ r_Response (implicit_flow env b s a j w).2 = r_Response w).
Proof.
  unfold implicit_flow. rewrite run_bind.
  destruct (validateAccessToken_run env b s
              (<["access_token" := JString a]> (<["id_token" := JString j]> ∅)) w)
    as [[m|e] ->]; run.
  - left. destruct (IdentityTokenCookieEnabled (config b)); run; fields; eauto 10.
  - right. fields. eauto.
Qed.

(** X1.  Whenever [Authenticate] returns an error, the response is the one
    it was given with the code set to 400: no payload, no redirect URL and
    no cookie is written on any error path. *)
Theorem Authenticate_failure_leaves_response r w err :
  (Authenticate env b r w).1 = Ret (Some err) →
  r_Response (Authenticate env b r w).2 = with_Code 400 (r_Response w).
Proof.
  rewrite Authenticate_classify.
  destruct (classify (Query r)) as [e d|c s|a j s| |]; try done.
  - rewrite callback_steps. destruct (store.exists_ s (b_state w)); [|done].
    match goal with |- context [authorization_code_flow env b ?p s c ?w0] =>
      destruct (authorization_code_flow_outcome p s c w0) as [[-> _]|[_ ->]] end; done.
  - destruct (implicit_flow_outcome s a j (received w)) as [[-> _]|[_ ->]]; done.
Qed.

(** X2.  When [Authenticate] returns no error, either it started a flow
    (none of [state], [error], [code], [access_token] in the query): the
    code is 302 and payload and cookie are untouched; or it processed a
    response: the code is 200, the payload is set and the redirect URL is
    untouched. *)
Theorem Authenticate_success_response r w :
  (Authenticate env b r w).1 = Ret None →
  match classify (Query r) with
  | Initial =>
      Code (r_Response (Authenticate env b r w).2) = 302
      ∧ Payload (r_Response (Authenticate env b r w).2) = Payload (r_Response w)
      ∧ Cookie (r_Response (Authenticate env b r w).2) = Cookie (r_Response w)
  | _ =>
      Code (r_Response (Authenticate env b r w).2) = 200
      ∧ is_Some (Payload (r_Response (Authenticate env b r w).2))
      ∧ RedirectURL (r_Response (Authenticate env b r w).2) = RedirectURL (r_Response w)
  end.
Proof.
  rewrite Authenticate_classify.
  destruct (classify (Query r)) as [e d|c s|a j s| |]; try done.
  - rewrite callback_steps. destruct (store.exists_ s (b_state w)); [|done].
    match goal with |- context [authorization_code_flow env b ?p s c ?w0] =>
      destruct (authorization_code_flow_outcome p s c w0) as [(_ & ? & ? & ?)|[? _]] end;
      done.
  - destruct (implicit_flow_outcome s a j (received w))
      as [(_ & ? & ? & ? & _)|[[cause ->] _]]; done.
Qed.

End Outcome.

(** ** Requests, and the queries the engine does not process *)

Lemma classify_CodeAndState q c s :
  classify q = CodeAndState c s →
  url.query_get q "error" = None
  ∧ url.query_get q "code" = Some c
  ∧ url.query_get q "state" = Some s.
Proof.
  unfold classify. intros H.
  destruct (url.query_get q "error"); [done|].
  destruct (url.query_get q "code"), (url.query_get q "state"),
    (url.query_get q "id_token"), (url.query_get q "access_token");
    simplify_eq; done.
Qed.

Section Shapes.
Context (env : Env) (b : IdentityProvider).

(** X3.  One call of [Authenticate] hands at most one request to the HTTP
    client, and it hands one only for a query without [error] that has
    [code] and a [state] live in the store. *)
Theorem Authenticate_at_most_one_request r w :
  ∃ reqs,
    requests_of (calls (Authenticate env b r w).2) = (requests_of (calls w) ++ reqs)%list
    ∧ (length reqs ≤ 1)%nat
    ∧ (reqs ≠ [] →
       ∃ c s, url.query_get (Query r) "error" = None
              ∧ url.query_get (Query r) "code" = Some c
              ∧ url.query_get (Query r) "state" = Some s
              ∧ is_Some (b_state w !! s)).
Proof.
  rewrite Authenticate_classify.
  destruct (classify (Query r)) as [e d|c s|a j s| |] eqn:Hshape.
  - exists []. split; [|split; [simpl; lia|done]].
    fields. rewrite requests_of_app. simpl. by rewrite !app_nil_r.
  - rewrite callback_steps. destruct (store.exists_ s (b_state w)) eqn:Hlive.
    + rewrite authorization_code_flow_steps.
      destruct (driver_exchange_pure env b
                  (reqPath_of env r +:+ "/authorization-code-callback") s c)
        as (o & es & -> & Hlen & _).
      exists (requests_of es). split; [|split; [done|]].
      * destruct o as [[tok|err]|msg]; fields.
        -- unfold claims_step.
           match goal with |- context [calls (?m ?w0).2] =>
             destruct (framed_after_exchange env b s tok w0) as [_ (es' & -> & HP)] end.
           fields. rewrite !requests_of_app, (requests_of_no_request es' HP). simpl.
           by rewrite !app_nil_r.
        -- rewrite !requests_of_app. simpl. by rewrite !app_nil_r.
        -- rewrite !requests_of_app. simpl. by rewrite !app_nil_r.
      * intros _. exists c, s. apply classify_CodeAndState in Hshape.
        destruct Hshape as (? & ? & ?). apply exists_true in Hlive. done.
    + exists []. split; [|split; [simpl; lia|done]].
      fields. rewrite !requests_of_app. simpl. by rewrite !app_nil_r.
  - exists []. split; [|split; [simpl; lia|done]].
    destruct (framed_implicit_flow env b s a j (received w)) as [_ (es & -> & HP)].
    fields. rewrite !requests_of_app, (requests_of_no_request es HP). simpl.
    by rewrite !app_nil_r.
  - exists []. split; [|split; [simpl; lia|done]].
    fields. rewrite requests_of_app. simpl. by rewrite !app_nil_r.
  - exists []. split; [|split; [simpl; lia|done]].
    rewrite initiate_flow_run. fields. rewrite !requests_of_app. simpl.
    by rewrite !app_nil_r.
Qed.

(** X4.  A query without [error] that has [state], [code] or
    [access_token], but neither [code] with [state] nor [id_token] with
    [access_token], is answered [ResponseProcessingFailed]: the code stays
    400, the debug record is the only call, the store is untouched. *)
Theorem Authenticate_unprocessable r w :
  url.query_get (Query r) "error" = None →
  (is_Some (url.query_get (Query r) "state")
   ∨ is_Some (url.query_get (Query r) "code")
   ∨ is_Some (url.query_get (Query r) "access_token")) →
  (url.query_get (Query r) "code" = None ∨ url.query_get (Query r) "state" = None) →
  (url.query_get (Query r) "id_token" = None
   ∨ url.query_get (Query r) "access_token" = None) →
  (Authenticate env b r w).1
  = Ret (Some (WithArgs ErrIdentityProviderOauthResponseProcessingFailed []))
  ∧ r_Response (Authenticate env b r w).2 = with_Code 400 (r_Response w)
  ∧ calls (Authenticate env b r w).2
    = (calls w ++ [LogDebug "received OAuth 2.0 response"])%list
  ∧ b_state (Authenticate env b r w).2 = b_state w.
Proof.
  intros He Hsome Hcs Hia. rewrite Authenticate_classify. unfold classify. rewrite He.
  destruct (url.query_get (Query r) "code"), (url.query_get (Query r) "state"),
    (url.query_get (Query r) "id_token"), (url.query_get (Query r) "access_token");
    try done; try (by destruct Hcs); try (by destruct Hia).
  all: destruct Hsome as [[? ?]|[[? ?]|[? ?]]]; done.
Qed.

(** X5.  [id_token] is not among the parameters tested at line 136: a
    query with [id_token] and none of [access_token], [code], [state],
    [error] is not processed as a response but starts a new flow (302, a
    fresh state registered with its nonce). *)
Theorem Authenticate_lone_id_token r w j :
  url.query_get (Query r) "id_token" = Some j →
  url.query_get (Query r) "access_token" = None →
  url.query_get (Query r) "code" = None →
  url.query_get (Query r) "state" = None →
  url.query_get (Query r) "error" = None →
  (Authenticate env b r w).1 = Ret None
  ∧ Code (r_Response (Authenticate env b r w).2) = 302
  ∧ Payload (r_Response (Authenticate env b r w).2) = Payload (r_Response w)
  ∧ calls (Authenticate env b r w).2
    = (calls w
       ++ [StateAdd (uuid_New env (draws w))
             (GetRandomString (random_char env (S (draws w))) 32);
           LogDebug "redirecting to OAuth 2.0 endpoint"])%list.
Proof.
  intros Hj Ha Hc Hs He. rewrite Authenticate_classify. unfold classify.
  rewrite He, Hc, Hs, Hj, Ha, initiate_flow_run. fields.
  by rewrite <- app_assoc.
Qed.

End Shapes.

(** ** The token exchange: failures and requests *)

Section TokenExchange.
Context (env : Env) (b : IdentityProvider).

(** X6.  In both exchanges, when the browser cannot be made, or the
    request cannot be built from the token URL, that very error is
    returned and nothing is sent: making the browser is the only call. *)
Theorem token_exchange_not_sent redirectURI state code_ w e :
  newBrowser env = Err e
  ∨ (∃ cli, newBrowser env = Ok cli) ∧ url_Parse env (tokenURL b) = Err e →
  ∀ exchange,
    exchange = fetchAccessToken env b ∨ exchange = fetchFacebookAccessToken env b →
    (exchange redirectURI state code_ w).1 = Ret (Err e)
    ∧ calls (exchange redirectURI state code_ w).2 = (calls w ++ [NewBrowser])%list.
Proof.
  intros H exchange [->| ->];
    [rewrite fetchAccessToken_steps|rewrite fetchFacebookAccessToken_steps];
    destruct H as [->|[[cli ->] ->]]; done.
Qed.

(** X7.  In both exchanges, when the transport, the reading of the body
    or the decoding of the body fails, that very error is returned,
    unwrapped, after exactly one request was handed to the client. *)
Theorem token_exchange_response_failure redirectURI state code_ w cli u e :
  newBrowser env = Ok cli →
  url_Parse env (tokenURL b) = Ok u →
  (∀ req, http.Do cli req = Err e
          ∨ ∃ resp, http.Do cli req = Ok resp
                    ∧ (http.ReadAll resp = Err e
                       ∨ ∃ body, http.ReadAll resp = Ok body
                                 ∧ json_Unmarshal env body = Err e)) →
  ∀ exchange,
    exchange = fetchAccessToken env b ∨ exchange = fetchFacebookAccessToken env b →
    (exchange redirectURI state code_ w).1 = Ret (Err e)
    ∧ length (requests_of (calls (exchange redirectURI state code_ w).2))
      = S (length (requests_of (calls w))).
Proof.
  intros Hcli Hu Hfail exchange [->| ->];
    [rewrite fetchAccessToken_steps|rewrite fetchFacebookAccessToken_steps];
    rewrite Hcli, Hu; cbv zeta;
    match goal with |- context [http.Do cli ?r] =>
      destruct (Hfail r) as [->|(resp & -> & [->|(body & -> & ->)])] end;
    fields; rewrite requests_of_app, length_app; simpl; split; (done || lia).
Qed.


(** X9.  Once the body of the token response is decoded, an exchange
    panics exactly when the body has both [error] and [error_description]
    and one of the two is not a JSON string (lines 372 and 439). *)
Theorem token_exchange_panics_iff redirectURI state code_ w cli u resp body data :
  newBrowser env = Ok cli →
  url_Parse env (tokenURL b) = Ok u →
  (∀ req, http.Do cli req = Ok resp) →
  http.ReadAll resp = Ok body →
  json_Unmarshal env body = Ok data →
  ∀ exchange,
    exchange = fetchAccessToken env b ∨ exchange = fetchFacebookAccessToken env b →
    (∃ msg, (exchange redirectURI state code_ w).1 = Panic msg)
    ↔ ∃ e v, data !! "error" = Some e
             ∧ data !! "error_description" = Some v
             ∧ (assert_string e = None ∨ assert_string v = None).
Proof.
  intros Hcli Hu Hdo Hbody Hdata exchange Hex.
  assert ((exchange redirectURI state code_ w).1 = (check_token_response b data w).1)
    as ->.
  { destruct Hex as [->| ->];
      eauto using fetchAccessToken_decoded, fetchFacebookAccessToken_decoded. }
  destruct (data !! "error") as [e|] eqn:He.
  - rewrite (check_token_response_error b data w e He).
    destruct (data !! "error_description") as [v|].
    + destruct (assert_string e) eqn:Hes, (assert_string v) eqn:Hvs.
      * split; [intros [msg Hmsg]; discriminate Hmsg|].
        intros (e' & v' & ? & ? & [?|?]); simplify_eq; congruence.
      * split; [intros _; exists e, v; eauto|intros _; eauto].
      * split; [intros _; exists e, v; eauto|intros _; eauto].
      * split; [intros _; exists e, v; eauto|intros _; eauto].
    + split; [intros [msg Hmsg]; discriminate Hmsg|].
      intros (e' & v' & _ & ? & _). done.
  - split; [|intros (e' & v' & ? & _); done].
    unfold check_token_response. rewrite He.
    destruct (missing_field (requiredTokenFields b) data); intros [msg Hmsg];
      discriminate Hmsg.
Qed.

(** X10.  The request of the generic exchange: one POST to the token URL
    whose body is the encoded parameters, with [Content-Type]
    [application/x-www-form-urlencoded], [Content-Length] the decimal
    length of that body, [Accept: application/json] exactly when the
    accept header is enabled, and no other header. *)
Theorem generic_token_request redirectURI state code_ w cli u :
  newBrowser env = Ok cli →
  url_Parse env (tokenURL b) = Ok u →
  ∃ req body,
    requests_of (calls (fetchAccessToken env b redirectURI state code_ w).2)
    = (requests_of (calls w) ++ [req])%list
    ∧ http.Method req = "POST"
    ∧ http.URL_ req = u
    ∧ body = url.Encode (token_params b redirectURI state code_)
    ∧ http.Body req = Some body
    ∧ ∀ k, http.Header_ req !! k
           = if bool_decide (k = "Content-Type")
             then Some ["application/x-www-form-urlencoded"]
             else if bool_decide (k = "Content-Length")
             then Some [pretty (String.length body)]
             else if bool_decide (k = "Accept")
             then (if enableAcceptHeader b then Some ["application/json"] else None)
             else None.
Proof.
  intros Hcli Hu.
  exists (generic_request b u redirectURI state code_),
         (url.Encode (token_params b redirectURI state code_)).
  split; [|split; [|split; [|split; [|split]]]].
  - rewrite fetchAccessToken_steps, Hcli, Hu. cbv zeta.
    repeat case_match; fields; rewrite !requests_of_app; simpl;
      by rewrite ?app_nil_r.
  - unfold generic_request. by destruct (enableAcceptHeader b).
  - unfold generic_request. by destruct (enableAcceptHeader b).
  - done.
  - unfold generic_request. by destruct (enableAcceptHeader b).
  - intros k. unfold generic_request, http.Header_Add, http.Header_Set, url.Add, url.Set_.
    destruct (enableAcceptHeader b); cbn [http.Header_];
      repeat case_bool_decide; simplify_map_eq; done.
Qed.

(** X11.  The request of the Facebook exchange: one GET to the token URL
    without body, the encoded parameters as its query string, and no header
    but [Accept: application/json] when the accept header is enabled. *)
Theorem facebook_token_request redirectURI state code_ w cli u :
  newBrowser env = Ok cli →
  url_Parse env (tokenURL b) = Ok u →
  ∃ req,
    requests_of (calls (fetchFacebookAccessToken env b redirectURI state code_ w).2)
    = (requests_of (calls w) ++ [req])%list
    ∧ http.Method req = "GET"
    ∧ http.Body req = None
    ∧ http.Location (http.URL_ req) = http.Location u
    ∧ http.RawQuery (http.URL_ req)
      = url.Encode (facebook_token_params b redirectURI code_)
    ∧ http.Header_ req
      = if enableAcceptHeader b then {["Accept" := ["application/json"]]} else ∅.
Proof.
  intros Hcli Hu.
  exists (facebook_request b u redirectURI code_).
  split.
  - rewrite fetchFacebookAccessToken_steps, Hcli, Hu. cbv zeta.
    repeat case_match; fields; rewrite !requests_of_app; simpl;
      by rewrite ?app_nil_r.
  - unfold facebook_request. by destruct (enableAcceptHeader b).
Qed.

End TokenExchange.

(** ** The claims of a callback *)

Section Callback.
Context (env : Env) (b : IdentityProvider).

Lemma claim_calls_claims_phase_calls accessToken m :
  claim_calls (claims_phase_calls env accessToken m)
  = [FetchUserInfo accessToken m;
     FetchUserGroups accessToken (fetchUserInfo env accessToken m).1].
Proof.
  unfold claims_phase_calls.
  by destruct (fetchUserInfo env accessToken m).2,
       (fetchUserGroups env accessToken (fetchUserInfo env accessToken m).1).2.
Qed.

(** The calls of the claims phase that concern the claims. *)
Lemma claims_phase_claim_calls accessToken m w :
  claim_calls (calls (claims_phase env b accessToken m w).2)
  = (claim_calls (calls w)
     ++ [FetchUserInfo accessToken m;
         FetchUserGroups accessToken (fetchUserInfo env accessToken m).1])%list.
Proof.
  rewrite claims_phase_steps. cbv zeta.
  destruct (if IdentityTokenCookieEnabled (config b) then _ else _) as [v|];
    [destruct (assert_string v)|]; unfold finished; fields;
    rewrite !claim_calls_app, claim_calls_claims_phase_calls; simpl;
    by rewrite ?app_nil_r.
Qed.

Lemma claims_phase_no_error accessToken m w err :
  (claims_phase env b accessToken m w).1 ≠ Ret (Some err).
Proof.
  rewrite claims_phase_steps. cbv zeta.
  destruct (if IdentityTokenCookieEnabled (config b) then _ else _) as [v|];
    [destruct (assert_string v)|]; done.
Qed.

(** The claims of the envelope: one call, and on its failure nothing
    else. *)
Lemma claims_step_calls state accessToken w :
  ∃ rest,
    claim_calls (calls (claims_step env b state accessToken w).2)
    = (claim_calls (calls w) ++ claims_call b state accessToken :: rest)%list
    ∧ (rest = []
       ∨ ∃ m, rest = [FetchUserInfo accessToken m;
                      FetchUserGroups accessToken (fetchUserInfo env accessToken m).1])
    ∧ ∀ err, (claims_step env b state accessToken w).1 = Ret (Some err) →
             rest = []
             ∧ r_Response (claims_step env b state accessToken w).2 = r_Response w
             ∧ ∃ cause,
                 err = WithArgs (if claims_from_endpoints (Driver (config b))
                                 then ErrIdentityProviderOauthFetchClaimsFailed
                                 else ErrIdentityProviderOauthValidateAccessTokenFailed)
                         [AErr cause]
                 ∧ (claims_from_endpoints (Driver (config b)) = true →
                    fetchClaims env accessToken = Err cause).
Proof.
  unfold claims_step, claims_call, b_fetchClaims. rewrite run_bind.
  destruct (claims_from_endpoints (Driver (config b))).
  - run. destruct (fetchClaims env accessToken) as [m|e]; run.
    + eexists. split; [|split].
      * rewrite claims_phase_claim_calls. fields. rewrite claim_calls_app. simpl.
        by rewrite <- app_assoc.
      * eauto.
      * intros err Herr. by apply claims_phase_no_error in Herr.
    + exists []. fields. rewrite claim_calls_app. simpl.
      split; [done|split; [by left|]]. intros err [= <-].
      split; [done|split; [done|]]. by exists e.
  - rewrite run_bind.
    destruct (validateAccessToken_run env b state accessToken w) as [[m|e] ->]; run.
    + eexists. split; [|split].
      * rewrite claims_phase_claim_calls. fields. rewrite claim_calls_app. simpl.
        by rewrite <- app_assoc.
      * eauto.
      * intros err Herr. by apply claims_phase_no_error in Herr.
    + exists []. fields. rewrite claim_calls_app. simpl.
      split; [done|split; [by left|]]. intros err [= <-].
      split; [done|split; [done|]]. by exists e.
Qed.

(** X12.  When the exchange of a callback fails with [err], the flow
    returns [FetchAccessTokenFailed] wrapping [err], leaves the response
    alone, neither verifies a token nor fetches claims, user info or
    groups, and its last call is the debug record of the failure. *)
Theorem callback_exchange_failure reqPath s c w err :
  (driver_exchange env b (reqPath +:+ "/authorization-code-callback") s c w).1
  = Ret (Err err) →
  (authorization_code_flow env b reqPath s c w).1
  = Ret (Some (WithArgs ErrIdentityProviderOauthFetchAccessTokenFailed [AErr err]))
  ∧ r_Response (authorization_code_flow env b reqPath s c w).2 = r_Response w
  ∧ claim_calls (calls (authorization_code_flow env b reqPath s c w).2)
    = claim_calls (calls w)
  ∧ last (calls (authorization_code_flow env b reqPath s c w).2)
    = Some (LogDebug
              "failed fetching OAuth 2.0 access token from the authorization server").
Proof.
  rewrite authorization_code_flow_steps.
  destruct (driver_exchange_pure env b (reqPath +:+ "/authorization-code-callback") s c)
    as (o & es & Hex & _ & Hcl & _).
  rewrite !Hex. cbn [fst]. intros ->. fields.
  split; [done|split; [done|split]].
  - rewrite !claim_calls_app, Hcl. simpl. by rewrite !app_nil_r.
  - by rewrite last_snoc.
Qed.

(** X13.  After a successful exchange the claims of the envelope are
    obtained by exactly one call, made first: the claims endpoint for the
    drivers github, gitlab, facebook, discord and patreon, the validation
    of the token against the state for every other driver.  User info and
    groups are fetched after it, once each and in this order, or not at
    all. *)
Theorem callback_claims_source reqPath s c w tok :
  (driver_exchange env b (reqPath +:+ "/authorization-code-callback") s c w).1
  = Ret (Ok tok) →
  ∃ rest,
    claim_calls (calls (authorization_code_flow env b reqPath s c w).2)
    = (claim_calls (calls w)
       ++ (if claims_from_endpoints (Driver (config b))
           then FetchClaims tok
           else ValidateAccessToken s tok) :: rest)%list
    ∧ (rest = []
       ∨ ∃ m, rest = [FetchUserInfo tok m;
                      FetchUserGroups tok (fetchUserInfo env tok m).1]).
Proof.
  rewrite authorization_code_flow_steps.
  destruct (driver_exchange_pure env b (reqPath +:+ "/authorization-code-callback") s c)
    as (o & es & Hex & _ & Hcl & _).
  rewrite !Hex. cbn [fst]. intros ->.
  match goal with |- context [claims_step env b s tok ?w0] =>
    destruct (claims_step_calls s tok w0) as (rest & Hcalls & Hrest & _) end.
  exists rest. split; [|done].
  rewrite Hcalls. fields. rewrite !claim_calls_app, Hcl. simpl. by rewrite !app_nil_r.
Qed.

(** X14.  After a successful exchange, every error of the flow comes from
    that one call: it is [FetchClaimsFailed] for the five drivers with a
    claims endpoint and [ValidateAccessTokenFailed] for the others, it
    wraps the cause, the response is left alone, and user info and groups
    were not fetched. *)
Theorem callback_claims_failure reqPath s c w tok err :
  (driver_exchange env b (reqPath +:+ "/authorization-code-callback") s c w).1
  = Ret (Ok tok) →
  (authorization_code_flow env b reqPath s c w).1 = Ret (Some err) →
  (∃ cause,
     err = WithArgs (if claims_from_endpoints (Driver (config b))
                     then ErrIdentityProviderOauthFetchClaimsFailed
                     else ErrIdentityProviderOauthValidateAccessTokenFailed)
             [AErr cause]
     ∧ (claims_from_endpoints (Driver (config b)) = true →
        fetchClaims env tok = Err cause))
  ∧ r_Response (authorization_code_flow env b reqPath s c w).2 = r_Response w
  ∧ claim_calls (calls (authorization_code_flow env b reqPath s c w).2)
    = (claim_calls (calls w)
       ++ [if claims_from_endpoints (Driver (config b))
           then FetchClaims tok
           else ValidateAccessToken s tok])%list.
Proof.
  rewrite authorization_code_flow_steps.
  destruct (driver_exchange_pure env b (reqPath +:+ "/authorization-code-callback") s c)
    as (o & es & Hex & _ & Hcl & _).
  rewrite !Hex. cbn [fst]. intros ->.
  match goal with |- context [claims_step env b s tok ?w0] =>
    destruct (claims_step_calls s tok w0) as (rest & Hcalls & _ & Hfail) end.
  intros Herr. destruct (Hfail err Herr) as (-> & Hresp & Hcause).
  split; [done|split; [by rewrite Hresp|]].
  rewrite Hcalls. fields. rewrite !claim_calls_app, Hcl. simpl. by rewrite !app_nil_r.
Qed.

End Callback.

(** ** Cookie, implicit flow, redirect URI, scopes, parameters *)

Section Strings.

Lemma append_cons c s t : String c s +:+ t = String c (s +:+ t).
Proof. reflexivity. Qed.

Lemma append_nil_r s : s +:+ "" = s.
Proof. induction s as [|c s IH]; [done|by rewrite append_cons, IH]. Qed.

Lemma append_assoc s1 s2 s3 : (s1 +:+ s2) +:+ s3 = s1 +:+ s2 +:+ s3.
Proof. induction s1 as [|c s1 IH]; [done|by rewrite !append_cons, IH]. Qed.

Lemma append_inj_l s a b : s +:+ a = s +:+ b → a = b.
Proof.
  induction s as [|c s IH]; [done|]. rewrite !append_cons. intros [= H]. auto.
Qed.

Lemma split_acc_nonempty sep cur s : strings.split_acc sep cur s ≠ [].
Proof.
  revert cur. induction s as [|c s IH]; intros cur; simpl; [done|].
  destruct (Ascii.eqb c sep); [done|apply IH].
Qed.

Lemma Join_cons e rest sep :
  rest ≠ [] → strings.Join (e :: rest) sep = e +:+ sep +:+ strings.Join rest sep.
Proof. by destruct rest. Qed.

Lemma Join_app l1 l2 sep :
  l1 ≠ [] → l2 ≠ [] →
  strings.Join (l1 ++ l2) sep = strings.Join l1 sep +:+ sep +:+ strings.Join l2 sep.
Proof.
  intros H1 H2. induction l1 as [|e l1 IH]; [done|].
  destruct l1 as [|e' l1].
  - simpl app. by rewrite Join_cons.
  - change ((e :: e' :: l1) ++ l2)%list with (e :: ((e' :: l1) ++ l2))%list.
    rewrite Join_cons by done. rewrite IH by done.
    rewrite (Join_cons e (e' :: l1)) by done. by rewrite !append_assoc.
Qed.

Lemma Join_split_acc sep cur s :
  strings.Join (strings.split_acc sep cur s) (String sep "") = cur +:+ s.
Proof.
  revert cur. induction s as [|c s IH]; intros cur; simpl.
  - by rewrite append_nil_r.
  - destruct (Ascii.eqb c sep) eqn:Hc.
    + apply Ascii.eqb_eq in Hc as ->.
      rewrite Join_cons by apply split_acc_nonempty. by rewrite IH.
    + rewrite IH. by rewrite append_assoc.
Qed.

(** Joining the pieces of a split gives the string back. *)
Lemma Join_Split s sep : strings.Join (strings.Split s sep) (String sep "") = s.
Proof. unfold strings.Split. by rewrite Join_split_acc. Qed.

End Strings.

Section Further.
Context (env : Env) (b : IdentityProvider).

(** X15.  The identity cookie of the claims phase: when the cookie is
    disabled or the envelope has no [id_token], the phase succeeds and the
    cookie is untouched; when it is enabled and [id_token] is a string, the
    phase succeeds and the cookie is enabled, named as configured and holds
    that string. *)
Theorem claims_phase_cookie accessToken m w :
  (IdentityTokenCookieEnabled (config b) = false ∨ accessToken !! "id_token" = None →
   (claims_phase env b accessToken m w).1 = Ret None
   ∧ Cookie (r_Response (claims_phase env b accessToken m w).2) = Cookie (r_Response w))
  ∧ (∀ p,
       IdentityTokenCookieEnabled (config b) = true →
       accessToken !! "id_token" = Some (JString p) →
       (claims_phase env b accessToken m w).1 = Ret None
       ∧ Cookie (r_Response (claims_phase env b accessToken m w).2)
         = {| Enabled := true; Name := IdentityTokenCookieName (config b);
              Payload_ := p |}).
Proof.
  rewrite claims_phase_steps. cbv zeta. split.
  - intros [-> | Hid]; [done|].
    destruct (IdentityTokenCookieEnabled (config b)); by rewrite ?Hid.
  - intros p -> ->. done.
Qed.

(** X16.  When the cookie is enabled and the [id_token] of the envelope is
    not a JSON string, the claims phase panics at the assertion of line
    226, after user info and groups were fetched.  (What the response holds
    at that moment is not stated: lines 224 and 225 have written the
    cookie's [Enabled] and [Name] by then.) *)
Theorem claims_phase_cookie_panic accessToken m w v :
  IdentityTokenCookieEnabled (config b) = true →
  accessToken !! "id_token" = Some v →
  assert_string v = None →
  (∃ msg, (claims_phase env b accessToken m w).1 = Panic msg)
  ∧ claim_calls (calls (claims_phase env b accessToken m w).2)
    = (claim_calls (calls w)
       ++ [FetchUserInfo accessToken m;
           FetchUserGroups accessToken (fetchUserInfo env accessToken m).1])%list.
Proof.
  intros Hen Hid Hv. split; [|apply claims_phase_claim_calls].
  rewrite claims_phase_steps. cbv zeta. rewrite Hen, Hid, Hv. eauto.
Qed.

Lemma implicit_flow_calls s a j w :
  ∃ rest,
    calls (implicit_flow env b s a j w).2
    = (calls w ++
       ValidateAccessToken s
         (<["access_token" := JString a]> (<["id_token" := JString j]> ∅)) :: rest)%list
    ∧ (rest = []
       ∨ rest = [LogDebug
                   "decoded claims from OAuth 2.0 authorization server access token"]).
Proof.
  unfold implicit_flow. rewrite run_bind.
  destruct (validateAccessToken_run env b s
              (<["access_token" := JString a]> (<["id_token" := JString j]> ∅)) w)
    as [[m|e] ->]; run.
  - eexists. split; [|by right].
    destruct (IdentityTokenCookieEnabled (config b)); run; fields;
      by rewrite <- app_assoc.
  - exists []. by split; [|left].
Qed.

(** X17.  A query without [error] that has [id_token] and [access_token]
    but not both [code] and [state] is validated once, against the [state]
    of the query or the empty string, with no request to the token endpoint
    and no call to the store.  On success the code is 200, the payload is
    set and the cookie, when enabled, holds the [id_token] of the query; on
    failure the error is [ValidateAccessTokenFailed] and only the code 400
    is written. *)
Theorem Authenticate_implicit r w a j :
  url.query_get (Query r) "error" = None →
  url.query_get (Query r) "id_token" = Some j →
  url.query_get (Query r) "access_token" = Some a →
  (url.query_get (Query r) "code" = None ∨ url.query_get (Query r) "state" = None) →
  validations_of (calls (Authenticate env b r w).2)
  = (validations_of (calls w) ++ [default "" (url.query_get (Query r) "state")])%list
  ∧ requests_of (calls (Authenticate env b r w).2) = requests_of (calls w)
  ∧ store_calls (calls (Authenticate env b r w).2) = store_calls (calls w)
  ∧ (((Authenticate env b r w).1 = Ret None
      ∧ Code (r_Response (Authenticate env b r w).2) = 200
      ∧ is_Some (Payload (r_Response (Authenticate env b r w).2))
      ∧ Cookie (r_Response (Authenticate env b r w).2)
        = if IdentityTokenCookieEnabled (config b)
          then {| Enabled := true; Name := IdentityTokenCookieName (config b);
                  Payload_ := j |}
          else Cookie (r_Response w))
     ∨ ((∃ cause, (Authenticate env b r w).1
                  = Ret (Some (WithArgs ErrIdentityProviderOauthValidateAccessTokenFailed
                                 [AErr cause])))
        ∧ r_Response (Authenticate env b r w).2 = with_Code 400 (r_Response w))).
Proof.
  intros He Hj Ha Hcs. rewrite Authenticate_classify.
  assert (classify (Query r)
          = Implicit a j (default "" (url.query_get (Query r) "state"))) as ->.
  { unfold classify. rewrite He, Hj, Ha.
    destruct Hcs as [-> | ->]; [done|].
    by destruct (url.query_get (Query r) "code"). }
  set (s := default "" (url.query_get (Query r) "state")).
  destruct (implicit_flow_calls s a j (received w)) as (rest & -> & Hrest).
  fields. rewrite !validations_of_app, !requests_of_app, !store_calls_app.
  split; [|split; [|split]].
  - destruct Hrest as [-> | ->]; simpl; by rewrite ?app_nil_r.
  - destruct Hrest as [-> | ->]; simpl; by rewrite ?app_nil_r.
  - destruct Hrest as [-> | ->]; simpl; by rewrite ?app_nil_r.
  - destruct (implicit_flow_outcome env b s a j (received w))
      as [(? & ? & ? & _ & ?)|[? ?]]; [left|right]; done.
Qed.

(** X18.  The [redirect_uri] sent with the exchange of a callback is
    always the request path followed by [/authorization-code-callback],
    for both drivers; when the JS callback is enabled, the [redirect_uri]
    of the initial redirect ends in [/authorization-code-js-callback], so
    the two differ. *)
Theorem callback_redirect_uri reqPath s c w cli u :
  newBrowser env = Ok cli →
  url_Parse env (tokenURL b) = Ok u →
  ∃ req params,
    requests_of (calls (authorization_code_flow env b reqPath s c w).2)
    = (requests_of (calls w) ++ [req])%list
    ∧ (http.Body req = Some (url.Encode params)
       ∨ http.RawQuery (http.URL_ req) = url.Encode params)
    ∧ params !! "redirect_uri" = Some [reqPath +:+ "/authorization-code-callback"]
    ∧ (JsCallbackEnabled (config b) = true →
       ∀ state nonce_ ase a lhe lh,
         redirect_params b reqPath state nonce_ ase a lhe lh !! "redirect_uri"
         = Some [reqPath +:+ "/authorization-code-js-callback"]
         ∧ reqPath +:+ "/authorization-code-js-callback"
           ≠ reqPath +:+ "/authorization-code-callback").
Proof.
  intros Hcli Hu. rewrite authorization_code_flow_requests.
  assert (∀ state nonce_ ase a lhe lh,
            JsCallbackEnabled (config b) = true →
            redirect_params b reqPath state nonce_ ase a lhe lh !! "redirect_uri"
            = Some [reqPath +:+ "/authorization-code-js-callback"]
            ∧ reqPath +:+ "/authorization-code-js-callback"
              ≠ reqPath +:+ "/authorization-code-callback") as Hjs.
  { intros state nonce_ ase a lhe lh Hen. split.
    - unfold redirect_params, url.Set_. rewrite Hen.
      by destruct (disableNonce b), (disableScope b), (disableResponseType b), ase, lhe.
    - intros Heq%append_inj_l. discriminate Heq. }
  case_bool_decide.
  - destruct (fetchFacebookAccessToken_request env b
                (reqPath +:+ "/authorization-code-callback") s c
                (record_calls
                   [LogDebug "received OAuth 2.0 code and state from the authorization server"]
                   w) cli u Hcli Hu) as (req & Hreq & _ & _ & Hq).
    exists req, (facebook_token_params b (reqPath +:+ "/authorization-code-callback") c).
    split; [|split; [by right|split; [done|]]].
    + rewrite Hreq. fields. rewrite requests_of_app. simpl. by rewrite app_nil_r.
    + intros Hen state nonce_ ase a lhe lh. by apply Hjs.
  - destruct (fetchAccessToken_request env b
                (reqPath +:+ "/authorization-code-callback") s c
                (record_calls
                   [LogDebug "received OAuth 2.0 code and state from the authorization server"]
                   w) cli u Hcli Hu) as (req & Hreq & _ & Hbody).
    exists req, (token_params b (reqPath +:+ "/authorization-code-callback") s c).
    split; [|split; [by left|split; [|]]].
    + rewrite Hreq. fields. rewrite requests_of_app. simpl. by rewrite app_nil_r.
    + unfold token_params, url.Set_. by destruct (disablePassGrantType b).
    + intros Hen state nonce_ ase a lhe lh. by apply Hjs.
Qed.

(** X19.  On the initial redirect with scopes enabled, the value of
    [additional_scopes] is appended to the configured scopes after one
    space exactly as it was received (repeated or trailing spaces are
    kept); with no configured scope it is the whole [scope]. *)
Theorem Authenticate_scope_verbatim r w a :
  url.query_get (Query r) "access_token" = None →
  url.query_get (Query r) "code" = None →
  url.query_get (Query r) "state" = None →
  url.query_get (Query r) "error" = None →
  disableScope b = false →
  url.query_get (Query r) "additional_scopes" = Some a →
  ∃ params : url.Values,
    RedirectURL (r_Response (Authenticate env b r w).2)
    = authorizationURL b +:+ "?" +:+ url.Encode params
    ∧ params !! "scope"
      = Some [match Scopes (config b) with
              | [] => a
              | _ => strings.Join (Scopes (config b)) " " +:+ " " +:+ a
              end].
Proof.
  intros Ha Hc Hs He Hscope Hadd. rewrite Authenticate_classify. unfold classify.
  rewrite He, Hc, Hs, Ha.
  destruct (url.query_get (Query r) "id_token");
    rewrite initiate_flow_run; fields;
    (eexists; split; [reflexivity|]);
    unfold url.has_param; rewrite redirect_params_spec;
    unfold spec_redirect_query; rewrite Hscope, Hadd; cbn [bool_decide]; simpl;
    (destruct (Scopes (config b)) as [|sc scs] eqn:Hsc;
     [simpl; by rewrite Join_Split
     |rewrite Join_app by (done || apply split_acc_nonempty); by rewrite Join_Split]).
Qed.

(** X20.  [Authenticate] depends on the query only through the first
    value of the eight parameters it reads: two requests from the same
    upstream whose queries agree on these give the same result, response,
    store, requests and claim calls, whatever else the queries hold. *)
Theorem Authenticate_reads_first_values r r' w :
  BaseURL r = BaseURL r' →
  BasePath r = BasePath r' →
  Method r = Method r' →
  Realm r = Realm r' →
  (∀ k, k ∈ observed_params → url.query_get (Query r) k = url.query_get (Query r') k) →
  (Authenticate env b r w).1 = (Authenticate env b r' w).1
  ∧ r_Response (Authenticate env b r w).2 = r_Response (Authenticate env b r' w).2
  ∧ b_state (Authenticate env b r w).2 = b_state (Authenticate env b r' w).2
  ∧ requests_of (calls (Authenticate env b r w).2)
    = requests_of (calls (Authenticate env b r' w).2)
  ∧ claim_calls (calls (Authenticate env b r w).2)
    = claim_calls (calls (Authenticate env b r' w).2).
Proof.
  intros H1 H2 H3 H4 Hq.
  assert (Authenticate env b r w = Authenticate env b r' w) as ->; [|done].
  rewrite !Authenticate_classify. unfold classify, reqPath_of, url.has_param.
  rewrite H1, H2, H3, H4.
  rewrite !(Hq "access_token"), !(Hq "id_token"), !(Hq "code"), !(Hq "state"),
    !(Hq "error"), !(Hq "error_description"), !(Hq "login_hint"),
    !(Hq "additional_scopes");
    try (unfold observed_params; set_solver).
Qed.

End Further.

(** ** The further properties on the sample data *)

(** X4 at a sample request: [?state=s]. *)
Lemma Authenticate_unprocessable_witness :
  (Authenticate Sample.oidc_env Sample.oidc (Sample.request [("state", "s")])
     Sample.fresh).1
  = Ret (Some (WithArgs ErrIdentityProviderOauthResponseProcessingFailed [])).
Proof.
  exact (proj1 (Authenticate_unprocessable Sample.oidc_env Sample.oidc
                  (Sample.request [("state", "s")]) Sample.fresh eq_refl
                  (or_introl (ex_intro _ "s" eq_refl)) (or_introl eq_refl)
                  (or_introl eq_refl))).
Defined.

(** X5 at a sample request: [?id_token=J]. *)
Lemma Authenticate_lone_id_token_witness :
  Code (r_Response (Authenticate Sample.oidc_env Sample.oidc
                      (Sample.request [("id_token", "J")]) Sample.fresh).2) = 302.
Proof.
  exact (proj1 (proj2 (Authenticate_lone_id_token Sample.oidc_env Sample.oidc
                         (Sample.request [("id_token", "J")]) Sample.fresh "J"
                         eq_refl eq_refl eq_refl eq_refl eq_refl))).
Defined.

(** X1 at a sample callback, the token endpoint being unreachable. *)
Lemma Authenticate_failure_leaves_response_witness :
  r_Response (Authenticate Cases.unreachable Sample.oidc Sample.callback
                (Sample.world Sample.one_flow)).2
  = with_Code 400 Sample.response.
Proof.
  apply (Authenticate_failure_leaves_response Cases.unreachable Sample.oidc
           Sample.callback (Sample.world Sample.one_flow)
           (WithArgs ErrIdentityProviderOauthFetchAccessTokenFailed
              [AErr (Foreign "connection refused")])).
  vm_compute. reflexivity.
Defined.

(** X2 at a sample callback for the one outstanding flow. *)
Lemma Authenticate_success_response_witness :
  Code (r_Response (Authenticate Sample.oidc_env Sample.oidc Sample.callback
                      (Sample.world Sample.one_flow)).2) = 200.
Proof.
  assert ((Authenticate Sample.oidc_env Sample.oidc Sample.callback
             (Sample.world Sample.one_flow)).1 = Ret None) as H
    by (vm_compute; reflexivity).
  exact (proj1 (Authenticate_success_response Sample.oidc_env Sample.oidc
                  Sample.callback (Sample.world Sample.one_flow) H)).
Defined.

(** X6 at a sample exchange, the browser failing. *)
Lemma token_exchange_not_sent_witness :
  (fetchAccessToken Cases.no_browser Sample.oidc Cases.callback_uri "s" "c"
     Sample.fresh).1 = Ret (Err (Foreign "no trusted roots")).
Proof.
  exact (proj1 (token_exchange_not_sent Cases.no_browser Sample.oidc
                  Cases.callback_uri "s" "c" Sample.fresh (Foreign "no trusted roots")
                  (or_introl eq_refl)
                  (fetchAccessToken Cases.no_browser Sample.oidc) (or_introl eq_refl))).
Defined.

(** X7 at a sample Facebook exchange, the token endpoint being unreachable. *)
Lemma token_exchange_response_failure_witness :
  (fetchFacebookAccessToken Cases.unreachable (Sample.provider "facebook" false false)
     Cases.callback_uri "s" "c" Sample.fresh).1
  = Ret (Err (Foreign "connection refused")).
Proof.
  exact (proj1 (token_exchange_response_failure Cases.unreachable
                  (Sample.provider "facebook" false false)
                  Cases.callback_uri "s" "c" Sample.fresh
                  {| http.Do := λ _, Err (Foreign "connection refused") |}
                  Cases.token_url (Foreign "connection refused")
                  eq_refl eq_refl (λ _, or_introl eq_refl)
                  (fetchFacebookAccessToken Cases.unreachable
                     (Sample.provider "facebook" false false))
                  (or_intror eq_refl))).
Defined.

(** X12 at a sample callback, the token endpoint being unreachable. *)
Lemma callback_exchange_failure_witness :
  (authorization_code_flow Cases.unreachable Sample.oidc
     "https://rp.example/auth/oauth2/generic" Sample.uuid "c"
     (Sample.world Sample.one_flow)).1
  = Ret (Some (WithArgs ErrIdentityProviderOauthFetchAccessTokenFailed
                 [AErr (Foreign "connection refused")])).
Proof.
  apply (callback_exchange_failure Cases.unreachable Sample.oidc
           "https://rp.example/auth/oauth2/generic" Sample.uuid "c"
           (Sample.world Sample.one_flow) (Foreign "connection refused")).
  vm_compute. reflexivity.
Defined.


(** X9 at a sample exchange answered with an error object and a description. *)
Lemma token_exchange_panics_iff_witness :
  ∃ msg, (fetchAccessToken Sample.error_env Sample.oidc Cases.callback_uri "s" "c"
            Sample.fresh).1 = Panic msg.
Proof.
  apply (token_exchange_panics_iff Sample.error_env Sample.oidc
           Cases.callback_uri "s" "c" Sample.fresh (Sample.client "{}") Cases.token_url
           {| http.ReadAll := Ok "{}" |} "{}" Sample.error_object
           eq_refl eq_refl (λ _, eq_refl) eq_refl eq_refl
           (fetchAccessToken Sample.error_env Sample.oidc) (or_introl eq_refl)).
  exists (JObject [("message", JString "bad code"); ("code", JNumber "100")]),
         (JString "d").
  split; [reflexivity|split; [reflexivity|left; reflexivity]].
Defined.

(** X10 at a sample exchange with the accept header enabled. *)
Lemma generic_token_request_witness :
  ∃ req,
    requests_of (calls (fetchAccessToken Sample.oidc_env (Cases.with_cookie "generic")
                          Cases.callback_uri "s" "c" Sample.fresh).2) = [req]
    ∧ http.Header_ req !! "Accept" = Some ["application/json"].
Proof.
  destruct (generic_token_request Sample.oidc_env (Cases.with_cookie "generic")
              Cases.callback_uri "s" "c" Sample.fresh (Sample.client "{}")
              Cases.token_url eq_refl eq_refl)
    as (req & body & Hreq & _ & _ & _ & _ & Hhdr).
  exists req. split; [exact Hreq|exact (Hhdr "Accept")].
Defined.

(** X11 at a sample exchange with the accept header disabled. *)
Lemma facebook_token_request_witness :
  ∃ req,
    requests_of (calls (fetchFacebookAccessToken Sample.oidc_env
                          (Sample.provider "facebook" false false)
                          Cases.callback_uri "s" "c" Sample.fresh).2) = [req]
    ∧ http.Header_ req = ∅.
Proof.
  destruct (facebook_token_request Sample.oidc_env (Sample.provider "facebook" false false)
              Cases.callback_uri "s" "c" Sample.fresh (Sample.client "{}")
              Cases.token_url eq_refl eq_refl)
    as (req & Hreq & _ & _ & _ & _ & Hhdr).
  exists req. split; [exact Hreq|exact Hhdr].
Defined.

(** X18 at a sample callback. *)
Lemma callback_redirect_uri_witness :
  ∃ req, requests_of
           (calls (authorization_code_flow Sample.oidc_env Sample.oidc
                     "https://rp.example/auth/oauth2/generic" Sample.uuid "c"
                     (Sample.world Sample.one_flow)).2) = [req].
Proof.
  destruct (callback_redirect_uri Sample.oidc_env Sample.oidc
              "https://rp.example/auth/oauth2/generic" Sample.uuid "c"
              (Sample.world Sample.one_flow) (Sample.client "{}") Cases.token_url
              eq_refl eq_refl) as (req & params & Hreq & _).
  exists req. exact Hreq.
Defined.

(** X19 at a sample request whose additional scopes have a double and a trailing space. *)
Lemma Authenticate_scope_verbatim_witness :
  ∃ params : url.Values,
    RedirectURL (r_Response
                   (Authenticate Sample.oidc_env Sample.oidc
                      (Sample.request [("additional_scopes", "groups  offline ")])
                      Sample.fresh).2)
    = "https://as.example/authorize?" +:+ url.Encode params
    ∧ params !! "scope" = Some ["openid email groups  offline "].
Proof.
  exact (Authenticate_scope_verbatim Sample.oidc_env Sample.oidc
           (Sample.request [("additional_scopes", "groups  offline ")]) Sample.fresh
           "groups  offline " eq_refl eq_refl eq_refl eq_refl eq_refl eq_refl).
Defined.

(** X15 at a sample envelope with the cookie enabled. *)
Lemma claims_phase_cookie_witness :
  Cookie (r_Response (claims_phase Sample.oidc_env (Cases.with_cookie "generic")
                        Sample.envelope Sample.claims_no_sub Sample.fresh).2)
  = {| Enabled := true; Name := "id"; Payload_ := "J" |}.
Proof.
  exact (proj2 (proj2 (claims_phase_cookie Sample.oidc_env (Cases.with_cookie "generic")
                         Sample.envelope Sample.claims_no_sub Sample.fresh)
                  "J" eq_refl eq_refl)).
Defined.

(** X16 at a sample envelope whose [id_token] is a number. *)
Lemma claims_phase_cookie_panic_witness :
  ∃ msg, (claims_phase Sample.oidc_env (Cases.with_cookie "github")
            Cases.numeric_id_token Sample.claims_no_sub Sample.fresh).1 = Panic msg.
Proof.
  exact (proj1 (claims_phase_cookie_panic Sample.oidc_env (Cases.with_cookie "github")
                  Cases.numeric_id_token Sample.claims_no_sub Sample.fresh
                  (JNumber "5") eq_refl eq_refl eq_refl)).
Defined.

(** X17 at a sample request: [?id_token=J&access_token=A&state=...]. *)
Lemma Authenticate_implicit_witness :
  validations_of
    (calls (Authenticate Sample.oidc_env Sample.oidc
              (Sample.request [("id_token", "J"); ("access_token", "A");
                               ("state", Sample.uuid)])
              (Sample.world Sample.one_flow)).2)
  = [Sample.uuid].
Proof.
  exact (proj1 (Authenticate_implicit Sample.oidc_env Sample.oidc
                  (Sample.request [("id_token", "J"); ("access_token", "A");
                                   ("state", Sample.uuid)])
                  (Sample.world Sample.one_flow) "A" "J"
                  eq_refl eq_refl eq_refl (or_introl eq_refl))).
Defined.

(** X13 at a sample callback for the driver [github]. *)
Lemma callback_claims_source_witness :
  ∃ rest,
    claim_calls
      (calls (authorization_code_flow Sample.oidc_env (Sample.provider "github" false false)
                "https://rp.example/auth/oauth2/generic" Sample.uuid "c"
                (Sample.world Sample.one_flow)).2)
    = FetchClaims Sample.envelope :: rest.
Proof.
  destruct (callback_claims_source Sample.oidc_env (Sample.provider "github" false false)
              "https://rp.example/auth/oauth2/generic" Sample.uuid "c"
              (Sample.world Sample.one_flow) Sample.envelope)
    as (rest & Hcalls & _).
  - vm_compute. reflexivity.
  - exists rest. exact Hcalls.
Defined.

(** X14 at a sample callback for the driver [github], the claims endpoint being down. *)
Lemma callback_claims_failure_witness :
  claim_calls
    (calls (authorization_code_flow Cases.claims_down (Sample.provider "github" false false)
              "https://rp.example/auth/oauth2/generic" Sample.uuid "c"
              (Sample.world Sample.one_flow)).2)
  = [FetchClaims Sample.envelope].
Proof.
  destruct (callback_claims_failure Cases.claims_down
              (Sample.provider "github" false false)
              "https://rp.example/auth/oauth2/generic" Sample.uuid "c"
              (Sample.world Sample.one_flow) Sample.envelope
              (WithArgs ErrIdentityProviderOauthFetchClaimsFailed
                 [AErr (Foreign "connection refused")]))
    as (_ & _ & Hcalls).
  - vm_compute. reflexivity.
  - vm_compute. reflexivity.
  - exact Hcalls.
Defined.

(** X20 at a sample callback with a repeated [state] and an unknown parameter. *)
Lemma Authenticate_reads_first_values_witness :
  (Authenticate Sample.oidc_env Sample.oidc
     (Sample.request [("code", "c"); ("state", Sample.uuid); ("state", "other");
                      ("utm_source", "mail")])
     (Sample.world Sample.one_flow)).1
  = (Authenticate Sample.oidc_env Sample.oidc Sample.callback
       (Sample.world Sample.one_flow)).1.
Proof.
  apply (Authenticate_reads_first_values Sample.oidc_env Sample.oidc
           (Sample.request [("code", "c"); ("state", Sample.uuid); ("state", "other");
                            ("utm_source", "mail")])
           Sample.callback (Sample.world Sample.one_flow)
           eq_refl eq_refl eq_refl eq_refl).
  intros k Hk. unfold observed_params in Hk.
  repeat (apply elem_of_cons in Hk as [->|Hk]; [reflexivity|]).
  by apply elem_of_nil in Hk.
Defined.
